(** * Solana starter scripts: a shallow embedding and its properties

    The repository is a set of run-to-completion TypeScript scripts
    (keygen, airdrop, spl_init, spl_mint, spl_transfer, spl_metadata)
    that talk to a ledger node, to the local file system and to the
    console.  Each script is embedded as a term of a small free monad
    whose operations are the external calls the script makes, in the
    order the source makes them.  Running a script against a handler
    (the outside world) yields the trace of calls, the final world and
    the way the script completed. *)

From Stdlib Require Import ZArith NArith QArith Lia Ascii DecimalString.
From stdpp Require Import base list strings gmap.

Local Open Scope Z_scope.

(** ** JavaScript values used by the scripts *)

(** A JavaScript string is a sequence of UTF-16 code units; [length] and
    [includes] count and compare code units. *)
Definition JsString := list N.

(** The code units of an ASCII literal. *)
Definition js (s : string) : JsString :=
  List.map Ascii.N_of_ascii (String.list_ascii_of_string s).

Definition js_length (s : JsString) : Z := Z.of_nat (length s).

Fixpoint js_startsWith (s pat : JsString) {struct pat} : bool :=
  match pat, s with
  | [], _ => true
  | _ :: _, [] => false
  | p :: pat', c :: s' => N.eqb p c && js_startsWith s' pat'
  end.

(** [s.includes(pat)] *)
Fixpoint js_includes (s pat : JsString) : bool :=
  js_startsWith s pat ||
  match s with
  | [] => false
  | _ :: s' => js_includes s' pat
  end.

(** A string is truthy when it is not empty. *)
Definition js_truthy (s : JsString) : bool :=
  match s with [] => false | _ => true end.

(** A thrown value.  A [catch] receives a value of type [any]:
    - [ErrorValue m]: a value other than [null] and [undefined] whose
      [message] property is a string ([Some]) or is missing or another
      falsy value ([None]); every [Error] is one;
    - [OddMessage includes]: a value other than [null] and [undefined]
      whose [message] is truthy but not a string; [includes] is the
      truthiness of what calling [message.includes(...)] returns, or
      [None] when that call throws;
    - [Nullish undefined]: [null] or [undefined], on which reading a
      property throws. *)
Inductive JsError :=
| ErrorValue (message : option JsString)
| OddMessage (includes : option bool)
| Nullish (undefined : bool).

(** The [message] of a thrown value, when it is a string. *)
Definition message (e : JsError) : option JsString :=
  match e with
  | ErrorValue m => m
  | _ => None
  end.

Definition error_of (msg : string) : JsError := ErrorValue (Some (js msg)).

(** What an awaited call gives back: a value, or a rejection. *)
Inductive Result (A : Type) :=
| Ok (a : A)
| Err (e : JsError).
Arguments Ok {A} a.
Arguments Err {A} e.

(** How a piece of script completes: normally, by a throw that a
    surrounding [try] may catch, or by [process.exit], which nothing
    catches. *)
Inductive Completion (A : Type) :=
| Normal (a : A)
| Thrown (e : JsError)
| Exited (code : Z).
Arguments Normal {A} a.
Arguments Thrown {A} e.
Arguments Exited {A} code.

(** ** Scripts as trees of external calls *)

Section Script.
Context {Op : Type} {Resp : Op -> Type}.

Inductive Script (R : Type) : Type :=
| Ret (r : R)
| Vis (op : Op) (k : Resp op -> Script R).
Arguments Ret {R} r.
Arguments Vis {R} op k.

Fixpoint script_bind {A B} (m : Script A) (f : A -> Script B) : Script B :=
  match m with
  | Ret a => f a
  | Vis op k => Vis op (fun r => script_bind (k r) f)
  end.

(** One external call, answered by the world. *)
Definition perform (op : Op) : Script (Resp op) := Vis op Ret.

Definition Async (A : Type) : Type := Script (Completion A).

Definition ret {A} (a : A) : Async A := Ret (Normal a).
Definition throw {A} (e : JsError) : Async A := Ret (Thrown e).
Definition process_exit {A} (code : Z) : Async A := Ret (Exited code).

Definition bind {A B} (m : Async A) (f : A -> Async B) : Async B :=
  script_bind m (fun c =>
    match c with
    | Normal a => f a
    | Thrown e => Ret (Thrown e)
    | Exited n => Ret (Exited n)
    end).

(** [await p]: a rejected promise throws. *)
Definition await {A} (p : Script (Result A)) : Async A :=
  script_bind p (fun r =>
    match r with
    | Ok a => ret a
    | Err e => throw e
    end).

(** A call that cannot fail (console output, key generation). *)
Definition call {A} (p : Script A) : Async A :=
  script_bind p ret.

(** [try { body } catch (e) { handler e }] *)
Definition try_catch {A} (body : Async A) (handler : JsError -> Async A) : Async A :=
  script_bind body (fun c =>
    match c with
    | Thrown e => handler e
    | other => Ret other
    end).

(** [if (c) { m }] *)
Definition when (c : bool) (m : Async unit) : Async unit :=
  if c then m else ret tt.

(** Running a script in a world of type [W]: the handler answers each
    call and moves the world on. *)
Definition Handler (W : Type) : Type := forall op : Op, W -> Resp op * W.

Fixpoint run {W R} (h : Handler W) (s : Script R) (w : W) (seen : list Op)
  : list Op * W * R :=
  match s with
  | Ret r => (seen, w, r)
  | Vis op k =>
      let '(r, w') := h op w in
      run h (k r) w' (seen ++ [op])
  end.

Definition trace {W R} (h : Handler W) (s : Script R) (w : W) : list Op :=
  (run h s w []).1.1.
Definition final {W R} (h : Handler W) (s : Script R) (w : W) : W :=
  (run h s w []).1.2.
Definition outcome {W R} (h : Handler W) (s : Script R) (w : W) : R :=
  (run h s w []).2.
End Script.

Arguments Script {Op} Resp R.
Arguments Async {Op} Resp A.
Arguments Handler {Op} Resp W.
Arguments Ret {Op Resp R} r.
Arguments Vis {Op Resp R} op k.

(** Scripts are written with stdpp's monadic notation:
    [x ← m; k] and [m;; k]. *)
Global Instance async_ret {Op} {Resp : Op -> Type} : MRet (Async Resp) :=
  fun A a => ret a.
Global Instance async_bind {Op} {Resp : Op -> Type} : MBind (Async Resp) :=
  fun A B f m => bind m f.

(** ** Numbers *)

(** [BigInt(n)] of an integer-valued number is that integer; BigInt
    values are unbounded, so they are [Z] with no wrap-around.  BigInt
    [/] truncates toward zero: it is [Z.quot]. *)
Definition BigInt (n : Z) : Z := n.
Definition bigint_div (a b : Z) : Z := Z.quot a b.

(** The [number]s the scripts compare are lamport counts and one half
    of [LAMPORTS_PER_SOL]; all are exactly representable doubles, so the
    comparison is the one on rationals. *)
Definition number_of (n : Z) : Q := inject_Z n.
Definition number_ge (a b : Q) : bool := Qle_bool b a.

(** ** The web3.js / spl-token boundary *)

(** airdrop, spl_init, spl_mint and spl_transfer call the node through
    web3.js and spl-token.  Their models keep every such call and the
    key generation; their console lines, which decide nothing, are left
    out, so a [catch] block that only prints is [mret tt]. *)

Module Web3.

(** Addresses.  Literal addresses carry their base58 text; the
    program ids exported by the SDK are named; a derived address is
    the term it is derived from. *)
Inductive PublicKey :=
| Address (base58 : string)
| SystemProgram_programId
| TOKEN_2022_PROGRAM_ID
| ASSOCIATED_TOKEN_PROGRAM_ID
| AssociatedTokenAddress (mint owner : PublicKey) (allowOwnerOffCurve : bool)
    (programId associatedTokenProgramId : PublicKey).

Record Keypair := { publicKey : PublicKey; secretKey : list Byte.byte }.

Definition getAssociatedTokenAddressSync
    (mint owner : PublicKey) (allowOwnerOffCurve : bool)
    (programId associatedTokenProgramId : PublicKey) : PublicKey :=
  AssociatedTokenAddress mint owner allowOwnerOffCurve programId associatedTokenProgramId.

(** The SDK constant: lamports in one SOL. *)
Definition LAMPORTS_PER_SOL : Z := 1000000000.

Inductive Instruction :=
| SystemProgram_createAccount
    (fromPubkey newAccountPubkey : PublicKey) (space lamports : Z) (programId : PublicKey)
| createInitializeTransferFeeConfigInstruction
    (mint transferFeeConfigAuthority withdrawWithheldAuthority : PublicKey)
    (transferFeeBasisPoints maximumFee : Z) (programId : PublicKey)
| createInitializeMintInstruction
    (mint : PublicKey) (decimals : Z) (mintAuthority : PublicKey)
    (freezeAuthority : option PublicKey) (programId : PublicKey)
| createAssociatedTokenAccountInstruction
    (payer associatedToken owner mint programId associatedTokenProgramId : PublicKey).

(** A transaction is its instructions, in the order they were added. *)
Definition Transaction := list Instruction.
Definition Transaction_new : Transaction := [].
Definition Transaction_add (tx : Transaction) (items : list Instruction) : Transaction :=
  tx ++ items.

Definition Signature := string.
Record BlockhashWithExpiryBlockHeight :=
  { blockhash : string; lastValidBlockHeight : Z }.
Record AccountInfo := { info_lamports : Z; info_owner : PublicKey }.
Record Account := { amount : Z; withheldAmount : option Z }.

(** The calls the scripts make, with their arguments. *)
Inductive Op :=
| Keypair_generate
| getBalance (publicKey : PublicKey)
| requestAirdrop (to : PublicKey) (lamports : Z)
| getLatestBlockhash
| confirmTransaction (signature : Signature) (strategy : BlockhashWithExpiryBlockHeight)
| getMinimumBalanceForRentExemption (dataLength : Z)
| sendAndConfirmTransaction (transaction : Transaction) (signers : list Keypair)
| getAccountInfo (publicKey : PublicKey)
| mintTo (payer : Keypair) (mint destination : PublicKey) (authority : Keypair)
    (amount : Z) (programId : PublicKey)
| transferCheckedWithFee (payer : Keypair) (source mint destination owner : PublicKey)
    (amount decimals fee : Z) (programId : PublicKey)
| getAccount (address programId : PublicKey).

Definition Resp (op : Op) : Type :=
  match op with
  | Keypair_generate => Keypair
  | getBalance _ => Result Z
  | requestAirdrop _ _ => Result Signature
  | getLatestBlockhash => Result BlockhashWithExpiryBlockHeight
  | confirmTransaction _ _ => Result unit
  | getMinimumBalanceForRentExemption _ => Result Z
  | sendAndConfirmTransaction _ _ => Result Signature
  | getAccountInfo _ => Result (option AccountInfo)
  | mintTo _ _ _ _ _ _ => Result Signature
  | transferCheckedWithFee _ _ _ _ _ _ _ _ _ => Result Signature
  | getAccount _ _ => Result Account
  end.

(** Calls that change ledger state when they succeed; the others
    only read it (or, for [Keypair_generate], touch nothing remote). *)
Definition mutates (op : Op) : bool :=
  match op with
  | requestAirdrop _ _
  | sendAndConfirmTransaction _ _
  | mintTo _ _ _ _ _ _
  | transferCheckedWithFee _ _ _ _ _ _ _ _ _ => true
  | _ => false
  end.

End Web3.

(** ** spl_transfer.ts *)

Module SplTransfer.
Import Web3.

Definition mint : PublicKey := Address "75qoQ7wo4Zax7EvZ3mGj9toiAL9HDNkuEDfRmF19T9tA".

Definition DECIMALS : Z := 9.
Definition TRANSFER_FEE_BASIS_POINTS : Z := 100.
Definition MAX_FEE : Z := BigInt 1000000000.
Definition TRANSFER_AMOUNT : Z := 100.

(** [BigInt(TRANSFER_AMOUNT) * BigInt(10 ** DECIMALS)], with the token
    count left open. *)
Definition transferAmount (tokens : Z) : Z :=
  BigInt tokens * BigInt (10 ^ DECIMALS).

Definition calculatedFee (transferAmount : Z) : Z :=
  bigint_div (transferAmount * BigInt TRANSFER_FEE_BASIS_POINTS) (BigInt 10000).

Definition fee (transferAmount : Z) : Z :=
  if calculatedFee transferAmount >? MAX_FEE
  then MAX_FEE
  else calculatedFee transferAmount.

(** The script.  [keypair] is the wallet read from the key file.  The
    recipient [to] is drawn as the module loads, before the [try]. *)
Definition main (keypair : Keypair) : Async Resp unit :=
  generated ← call (perform Keypair_generate);
  let to := publicKey generated in
  try_catch
    (let fromAta :=
       getAssociatedTokenAddressSync mint (publicKey keypair) false
         TOKEN_2022_PROGRAM_ID ASSOCIATED_TOKEN_PROGRAM_ID in
     let toAta :=
       getAssociatedTokenAddressSync mint to false
         TOKEN_2022_PROGRAM_ID ASSOCIATED_TOKEN_PROGRAM_ID in
     toAtaInfo ← await (perform (getAccountInfo toAta));
     when (negb (bool_decide (is_Some toAtaInfo)))
       (let createAtaTx :=
          Transaction_add Transaction_new
            [createAssociatedTokenAccountInstruction
               (publicKey keypair) toAta to mint
               TOKEN_2022_PROGRAM_ID ASSOCIATED_TOKEN_PROGRAM_ID] in
        await (perform (sendAndConfirmTransaction createAtaTx [keypair]));;
        mret tt);;
     let transferAmount := transferAmount TRANSFER_AMOUNT in
     let fee := fee transferAmount in
     transferSig ← await (perform
       (transferCheckedWithFee keypair fromAta mint toAta (publicKey keypair)
          transferAmount DECIMALS fee TOKEN_2022_PROGRAM_ID));
     recipientAccount ← await (perform (getAccount toAta TOKEN_2022_PROGRAM_ID));
     mret tt)
    (fun error => mret tt).

(** The recipient a run transfers to: the owner of the destination
    account of its transfer call, and of the account it looks up. *)
Definition recipients (calls : list Op) : list PublicKey :=
  omap (fun op =>
    match op with
    | getAccountInfo (AssociatedTokenAddress _ owner _ _ _) => Some owner
    | transferCheckedWithFee _ _ _ (AssociatedTokenAddress _ owner _ _ _) _ _ _ _ _ =>
        Some owner
    | _ => None
    end) calls.

(** What it means for a call to be addressed to recipient [to]: the
    accounts it names belong to [to] and to the literal mint. *)
Definition uses_recipient (to : PublicKey) (op : Op) : Prop :=
  match op with
  | getAccountInfo a | getAccount a _ =>
      a = AssociatedTokenAddress mint to false
            TOKEN_2022_PROGRAM_ID ASSOCIATED_TOKEN_PROGRAM_ID
  | sendAndConfirmTransaction tx _ =>
      exists payer,
        tx = [createAssociatedTokenAccountInstruction payer
                (AssociatedTokenAddress mint to false
                   TOKEN_2022_PROGRAM_ID ASSOCIATED_TOKEN_PROGRAM_ID)
                to mint TOKEN_2022_PROGRAM_ID ASSOCIATED_TOKEN_PROGRAM_ID]
  | transferCheckedWithFee _ _ m destination _ _ _ _ _ =>
      m = mint /\
      destination = AssociatedTokenAddress mint to false
                      TOKEN_2022_PROGRAM_ID ASSOCIATED_TOKEN_PROGRAM_ID
  | _ => True
  end.

End SplTransfer.

(** ** airdrop.ts *)

Module Airdrop.
Import Web3.

Definition main (keypair : Keypair) : Async Resp unit :=
  try_catch
    (balance ← await (perform (getBalance (publicKey keypair)));
     if number_ge (number_of balance) (0.5 * number_of LAMPORTS_PER_SOL)
     then mret tt
     else
       txhash ← await (perform
         (requestAirdrop (publicKey keypair) (2 * LAMPORTS_PER_SOL)));
       latestBlockhash ← await (perform getLatestBlockhash);
       await (perform (confirmTransaction txhash latestBlockhash));;
       newBalance ← await (perform (getBalance (publicKey keypair)));
       mret tt)
    (fun e => mret tt).

End Airdrop.

(** ** spl_init.ts: the mint with a transfer-fee extension *)

Module SplInit.
Import Web3.

Inductive ExtensionType := TransferFeeConfig.

Definition TRANSFER_FEE_BASIS_POINTS : Z := 100.
Definition MAX_FEE : Z := BigInt 1000000000.
Definition DECIMALS : Z := 9.

Section Sdk.
(** The SDK's size computation for a mint account with extensions. *)
Variable getMintLen : list ExtensionType -> Z.

Definition transaction (keypair : Keypair) (mint : PublicKey)
    (mintLen mintLamports : Z) : Transaction :=
  Transaction_add Transaction_new
    [ SystemProgram_createAccount
        (publicKey keypair) mint mintLen mintLamports TOKEN_2022_PROGRAM_ID;
      createInitializeTransferFeeConfigInstruction
        mint (publicKey keypair) (publicKey keypair)
        TRANSFER_FEE_BASIS_POINTS MAX_FEE TOKEN_2022_PROGRAM_ID;
      createInitializeMintInstruction
        mint DECIMALS (publicKey keypair) None TOKEN_2022_PROGRAM_ID ].

Definition main (keypair : Keypair) : Async Resp unit :=
  try_catch
    (mintKeypair ← call (perform Keypair_generate);
     let mint := publicKey mintKeypair in
     let extensions := [TransferFeeConfig] in
     let mintLen := getMintLen extensions in
     mintLamports ← await (perform (getMinimumBalanceForRentExemption mintLen));
     let transaction := transaction keypair mint mintLen mintLamports in
     signature ← await (perform
       (sendAndConfirmTransaction transaction [keypair; mintKeypair]));
     mret tt)
    (fun error => mret tt).
End Sdk.

(** The transactions a run submitted, in order. *)
Definition submitted (calls : list Op) : list Transaction :=
  omap (fun op =>
    match op with
    | sendAndConfirmTransaction tx _ => Some tx
    | _ => None
    end) calls.

Definition is_createAccount (i : Instruction) : bool :=
  match i with SystemProgram_createAccount _ _ _ _ _ => true | _ => false end.
Definition is_initializeTransferFeeConfig (i : Instruction) : bool :=
  match i with
  | createInitializeTransferFeeConfigInstruction _ _ _ _ _ _ => true
  | _ => false
  end.
Definition is_initializeMint (i : Instruction) : bool :=
  match i with createInitializeMintInstruction _ _ _ _ _ => true | _ => false end.

(** Position of the first instruction satisfying [p]. *)
Fixpoint position (p : Instruction -> bool) (tx : Transaction) : option nat :=
  match tx with
  | [] => None
  | i :: tx' => if p i then Some 0%nat else S <$> position p tx'
  end.

(** Some instruction satisfying [p] comes before every instruction
    satisfying [q], and there is one of each. *)
Definition precedes (p q : Instruction -> bool) (tx : Transaction) : Prop :=
  exists i j, position p tx = Some i /\ position q tx = Some j /\ (i < j)%nat.

End SplInit.

(** ** spl_mint.ts *)

Module SplMint.
Import Web3.

Definition mint : PublicKey := Address "75qoQ7wo4Zax7EvZ3mGj9toiAL9HDNkuEDfRmF19T9tA".
Definition DECIMALS : Z := 9.
Definition AMOUNT_TO_MINT : Z := 1000000000.

Definition ata (keypair : Keypair) : PublicKey :=
  getAssociatedTokenAddressSync mint (publicKey keypair) false
    TOKEN_2022_PROGRAM_ID ASSOCIATED_TOKEN_PROGRAM_ID.

Definition createAtaTx (keypair : Keypair) : Transaction :=
  Transaction_add Transaction_new
    [createAssociatedTokenAccountInstruction
       (publicKey keypair) (ata keypair) (publicKey keypair) mint
       TOKEN_2022_PROGRAM_ID ASSOCIATED_TOKEN_PROGRAM_ID].

Definition tokensToMint : Z := BigInt AMOUNT_TO_MINT * BigInt (10 ^ DECIMALS).

Definition main (keypair : Keypair) : Async Resp unit :=
  try_catch
    (let ata := ata keypair in
     ataInfo ← await (perform (getAccountInfo ata));
     (if negb (bool_decide (is_Some ataInfo))
      then
        let createAtaTx := createAtaTx keypair in
        await (perform (sendAndConfirmTransaction createAtaTx [keypair]));;
        mret tt
      else mret tt);;
     let tokensToMint := tokensToMint in
     mintTx ← await (perform
       (mintTo keypair mint ata keypair tokensToMint TOKEN_2022_PROGRAM_ID));
     mret tt)
    (fun error => mret tt).

End SplMint.

(** ** A small ledger to run the scripts against *)

Module Devnet.
Import Web3.

Global Instance PublicKey_eq_dec : EqDecision PublicKey.
Proof. solve_decision. Defined.

(** The wallet's lamports, the accounts that exist, and the keys the
    generator will hand out next. *)
Record Ledger := {
  lamports : Z;
  accounts : list PublicKey;
  entropy : list Keypair;
}.

Definition no_key : Keypair := {| publicKey := Address ""; secretKey := [] |}.

Definition created (tx : Transaction) : list PublicKey :=
  omap (fun i =>
    match i with
    | SystemProgram_createAccount _ new _ _ _ => Some new
    | createAssociatedTokenAccountInstruction _ ata _ _ _ _ => Some ata
    | _ => None
    end) tx.

Definition node : Handler Resp Ledger := fun op =>
  match op as o return Ledger -> Resp o * Ledger with
  | Keypair_generate => fun w =>
      (hd no_key (entropy w),
       {| lamports := lamports w; accounts := accounts w; entropy := tl (entropy w) |})
  | getBalance _ => fun w => (Ok (lamports w), w)
  | requestAirdrop _ n => fun w =>
      (Ok "airdrop"%string,
       {| lamports := lamports w + n; accounts := accounts w; entropy := entropy w |})
  | getLatestBlockhash => fun w =>
      (Ok {| blockhash := "blockhash"; lastValidBlockHeight := 150 |}, w)
  | confirmTransaction _ _ => fun w => (Ok tt, w)
  | getMinimumBalanceForRentExemption len => fun w => (Ok (6960 * (len + 128)), w)
  | sendAndConfirmTransaction tx _ => fun w =>
      (Ok "tx"%string,
       {| lamports := lamports w; accounts := accounts w ++ created tx;
          entropy := entropy w |})
  | getAccountInfo pk => fun w =>
      (Ok (if bool_decide (pk ∈ accounts w)
           then Some {| info_lamports := 2074080; info_owner := TOKEN_2022_PROGRAM_ID |}
           else None), w)
  | mintTo _ _ _ _ _ _ => fun w => (Ok "mint"%string, w)
  | transferCheckedWithFee _ _ _ _ _ _ _ _ _ => fun w => (Ok "transfer"%string, w)
  | getAccount _ _ => fun w => (Ok {| amount := 0; withheldAmount := Some 0 |}, w)
  end.

Definition wallet : Keypair :=
  {| publicKey := Address "9xQeWvG816bUx9EPjHmaT23yvVM2ZWbrrpZb9PusVFin"; secretKey := [] |}.
Definition alice : Keypair :=
  {| publicKey := Address "A1iceA1iceA1iceA1iceA1iceA1iceA1iceA1iceA1ic"; secretKey := [] |}.
Definition bob : Keypair :=
  {| publicKey := Address "BobBobBobBobBobBobBobBobBobBobBobBobBobBobBo"; secretKey := [] |}.

Definition fresh (sol : Z) (keys : list Keypair) : Ledger :=
  {| lamports := sol; accounts := []; entropy := keys |}.

End Devnet.

(** ** spl_metadata.ts *)

Module SplMetadata.

(** A umi public key is its base58 text. *)
Definition PublicKey := JsString.

Record TokenMetadata := { name : JsString; symbol : JsString; uri : JsString }.
Record RichMetadata := { description : JsString }.

(** The constants the operator edits at the top of the file. *)
Record Config := {
  MINT_ADDRESS : JsString;
  TOKEN_METADATA : TokenMetadata;
  UPLOAD_METADATA_JSON : bool;
  RICH_METADATA : RichMetadata;
}.

(** The values in the source. *)
Definition source_config : Config := {|
  MINT_ADDRESS := js "5SY3Rna38Ay1SAQvswinezjdaeGv576LAfTv9Vo7dcft";
  TOKEN_METADATA := {|
    name := js "Transfer Fee Token";
    symbol := js "TFT";
    uri := js "https://gateway.irys.xyz/2MGBorJjgj4wqine3KAETUmoavZNYt67n3gQVt1zriHw" |};
  UPLOAD_METADATA_JSON := true;
  RICH_METADATA := {|
    description := js "A Solana SPL token with 1% transfer fee. Built using Token-2022 program with transfer fee extension." |};
|}.

Record MetadataJson := {
  json_name : JsString; json_symbol : JsString; json_description : JsString }.

Record Creator := { address : PublicKey; verified : bool; share : Z }.

Record DataV2Args := {
  data_name : JsString;
  data_symbol : JsString;
  data_uri : JsString;
  sellerFeeBasisPoints : Z;
  creators : list Creator;
  collection : option unit;
  uses : option unit;
}.

(** The input of [createMetadataAccountV3]: accounts and arguments. *)
Record CreateMetadataAccountV3 := {
  mint : PublicKey;
  mintAuthority : PublicKey;
  payer : PublicKey;
  updateAuthority : PublicKey;
  data : DataV2Args;
  isMutable : bool;
  collectionDetails : option unit;
}.

Record MaybeRpcAccount := { exists_ : bool }.

(** What is handed to the console: a string, a thrown value, or a
    [message] that is not a string. *)
Inductive JsValue :=
| VString (s : JsString)
| VError (e : JsError)
| VMessage.

Inductive Op :=
| rpc_getAccount (publicKey : PublicKey)
| uploader_uploadJson (json : MetadataJson)
| sendAndConfirm (tx : CreateMetadataAccountV3)
| console_log (text : string)
| console_error (text : string) (args : list JsValue).

Definition Resp (op : Op) : Type :=
  match op with
  | rpc_getAccount _ => Result MaybeRpcAccount
  | uploader_uploadJson _ => Result JsString
  | sendAndConfirm _ => Result (list Byte.byte)
  | console_log _ => unit
  | console_error _ _ => unit
  end.

(** Calls that go over the network, and those among them that upload
    or submit something. *)
Definition remote (op : Op) : bool :=
  match op with
  | rpc_getAccount _ | uploader_uploadJson _ | sendAndConfirm _ => true
  | _ => false
  end.
Definition mutates (op : Op) : bool :=
  match op with
  | uploader_uploadJson _ | sendAndConfirm _ => true
  | _ => false
  end.
Definition log (text : string) : Async Resp unit := call (perform (console_log text)).
Definition error (text : string) (args : list JsValue) : Async Resp unit :=
  call (perform (console_error text args)).

Definition nl : string := String (Ascii.ascii_of_nat 10) "".

(** [error.message || error], for a value whose [message] can be
    read. *)
Definition message_or_error (e : JsError) : JsValue :=
  match e with
  | OddMessage _ => VMessage
  | _ =>
      match message e with
      | Some m => if js_truthy m then VString m else VError e
      | None => VError e
      end
  end.

(** [error.message && error.message.includes("ProgrammableNonFungible")] *)
Definition is_nft_conflict (e : JsError) : bool :=
  match message e with
  | Some m => js_truthy m && js_includes m (js "ProgrammableNonFungible")
  | None => false
  end.

Definition nft_explanation : Async Resp unit :=
  error (nl +:+ "⚠️  IMPORTANT: The mint address appears to be an NFT, not a fungible SPL token!") [];;
  log (nl +:+ "This error occurs when:");;
  log "  - The MINT_ADDRESS points to an NFT mint (not an SPL token)";;
  log "  - The mint already has NFT metadata attached";;
  log (nl +:+ "Solution:");;
  log "  1. Make sure you're using the mint address from spl_init.ts (your SPL token)";;
  log "  2. Do NOT use the NFT mint address from nft_mint.ts";;
  log "  3. Verify the mint address in spl_init.ts output";;
  log "  4. If you created a new token, use that mint address instead".

Definition troubleshooting : Async Resp unit :=
  log (nl +:+ "Troubleshooting:");;
  log "  1. Make sure your wallet has enough SOL (~0.01 SOL needed)";;
  log "  2. Verify the MINT_ADDRESS is correct (from spl_init.ts output)";;
  log "  3. Check that the token mint exists (run spl_init.ts first)";;
  log "  4. Ensure you're the mint authority";;
  log "  5. Check your internet connection".

(** The engine's errors for a property read on [null] or [undefined]
    and for a call of something that is not a function. *)
Definition cannot_read_message (undefined : bool) : JsError :=
  error_of ("Cannot read properties of " +:+
            (if undefined then "undefined" else "null") +:+ " (reading 'message')").
Definition includes_not_a_function : JsError :=
  error_of "error.message.includes is not a function".

(** The test of the [if] in the [catch], for any thrown value: its
    result, or what evaluating it throws. *)
Definition conflict_test (e : JsError) : Result bool :=
  match e with
  | ErrorValue _ => Ok (is_nft_conflict e)
  | OddMessage (Some result) => Ok result
  | OddMessage None => Err includes_not_a_function
  | Nullish undefined => Err (cannot_read_message undefined)
  end.

Definition evaluate {A} (r : Result A) : Async Resp A :=
  match r with
  | Ok a => mret a
  | Err e => throw e
  end.

(** The body of the outer [catch].  Its first statement reads
    [error.message] before anything is printed. *)
Definition on_error (e : JsError) : Async Resp unit :=
  match e with
  | Nullish undefined => throw (cannot_read_message undefined)
  | _ =>
      error (nl +:+ "❌ Error creating metadata:") [message_or_error e];;
      conflict ← evaluate (conflict_test e);
      if conflict : bool then nft_explanation else troubleshooting
  end.

Section Sdk.
(** umi's [publicKey(input)] checks that the text is a base58 key and
    throws an [Error] otherwise; the check and the message of the error
    are the SDK's. *)
Variable isPublicKey : JsString -> bool.
Variable InvalidPublicKeyError : JsString -> JsString.

Definition publicKey (input : JsString) : Async Resp PublicKey :=
  if isPublicKey input
  then mret input
  else throw (ErrorValue (Some (InvalidPublicKeyError input))).

Definition mint_placeholder (cfg : Config) : bool :=
  js_includes (MINT_ADDRESS cfg) (js "<PASTE") || (js_length (MINT_ADDRESS cfg) <? 32).

(** [!metadataUri || metadataUri.length < 10] *)
Definition uri_missing (metadataUri : JsString) : bool :=
  negb (js_truthy metadataUri) || (js_length metadataUri <? 10).

(** The script; [signer] is the public key of the wallet.  Of the
    console output, the lines written on the validation failures and
    in the [catch] blocks are kept; progress lines are left out.
    [body] is the block of the outer [try]. *)
Definition body (cfg : Config) (signer : PublicKey) : Async Resp unit :=
    (when (mint_placeholder cfg)
       (error (nl +:+ "❌ ERROR: Please update MINT_ADDRESS with your token's mint address") [];;
        log "   Get this from spl_init.ts output.";;
        process_exit 1);;
     mint ← publicKey (MINT_ADDRESS cfg);
     try_catch
       (mintAccount ← await (perform (rpc_getAccount mint));
        when (negb (exists_ mintAccount))
          (error (nl +:+ "❌ ERROR: Mint account does not exist!") [];;
           log "   Please verify the MINT_ADDRESS is correct.";;
           log "   Make sure you've run spl_init.ts first.";;
           process_exit 1))
       (fun _ => log "  Could not verify mint account (will proceed anyway)");;
     metadataUri ←
       (if UPLOAD_METADATA_JSON cfg
        then
          let metadataJson := {|
            json_name := name (TOKEN_METADATA cfg);
            json_symbol := symbol (TOKEN_METADATA cfg);
            json_description := description (RICH_METADATA cfg) |} in
          await (perform (uploader_uploadJson metadataJson))
        else
          let metadataUri := uri (TOKEN_METADATA cfg) in
          when (uri_missing metadataUri)
            (error (nl +:+ "❌ ERROR: TOKEN_METADATA.uri must be set when UPLOAD_METADATA_JSON is false") [];;
             log "   Either set UPLOAD_METADATA_JSON to true, or provide a valid URI.";;
             process_exit 1);;
          mret metadataUri);
     let data := {|
       data_name := name (TOKEN_METADATA cfg);
       data_symbol := symbol (TOKEN_METADATA cfg);
       data_uri := metadataUri;
       sellerFeeBasisPoints := 0;
       creators := [ {| address := signer; verified := true; share := 100 |} ];
       collection := None;
       uses := None |} in
     let tx := {|
       mint := mint;
       mintAuthority := signer;
       payer := signer;
       updateAuthority := signer;
       data := data;
       isMutable := true;
       collectionDetails := None |} in
     result ← await (perform (sendAndConfirm tx));
     mret tt).

Definition main (cfg : Config) (signer : PublicKey) : Async Resp unit :=
  try_catch (body cfg signer) on_error.
End Sdk.

(** A remote side answering every call the same way. *)
Definition scripted (account : Result MaybeRpcAccount) (upload : Result JsString)
    (send : Result (list Byte.byte)) : Handler Resp unit := fun op =>
  match op as o return unit -> Resp o * unit with
  | rpc_getAccount _ => fun w => (account, w)
  | uploader_uploadJson _ => fun w => (upload, w)
  | sendAndConfirm _ => fun w => (send, w)
  | console_log _ => fun w => (tt, w)
  | console_error _ _ => fun w => (tt, w)
  end.

(** A base58 check good enough for the sample runs: 32 to 44 code
    units, none of them outside the base58 alphabet. *)
Definition base58_unit (c : N) : bool :=
  ((49 <=? c) && (c <=? 57) ||
   (65 <=? c) && (c <=? 90) && negb (c =? 73) && negb (c =? 79) ||
   (97 <=? c) && (c <=? 122) && negb (c =? 108))%N.
Definition sample_isPublicKey (s : JsString) : bool :=
  (32 <=? js_length s) && (js_length s <=? 44) && forallb base58_unit s.
Definition sample_InvalidPublicKeyError (s : JsString) : JsString :=
  js "The provided public key is invalid: " ++ s.

(** What a script that only prints says, whoever listens. *)
Definition said (s : Async Resp unit) : list Op :=
  trace (scripted (Err (error_of "")) (Err (error_of "")) (Err (error_of ""))) s tt.

(** The message of the error contains the text. *)
Definition message_contains (e : JsError) (text : JsString) : bool :=
  match message e with
  | Some m => js_includes m text
  | None => false
  end.

Definition is_lookup (op : Op) : bool :=
  match op with rpc_getAccount _ => true | _ => false end.
Definition is_upload (op : Op) : bool :=
  match op with uploader_uploadJson _ => true | _ => false end.
Definition is_submission (op : Op) : bool :=
  match op with sendAndConfirm _ => true | _ => false end.
Definition count (p : Op -> bool) (calls : list Op) : nat :=
  length (List.filter p calls).

(** The source configuration with the upload switched off and the
    given mint address and URI. *)
Definition direct_uri_config (mint_address metadata_uri : JsString) : Config := {|
  MINT_ADDRESS := mint_address;
  TOKEN_METADATA := {|
    name := name (TOKEN_METADATA source_config);
    symbol := symbol (TOKEN_METADATA source_config);
    uri := metadata_uri |};
  UPLOAD_METADATA_JSON := false;
  RICH_METADATA := RICH_METADATA source_config;
|}.

Definition sample_signer : PublicKey :=
  js "9xQeWvG816bUx9EPjHmaT23yvVM2ZWbrrpZb9PusVFin".

End SplMetadata.

(** ** The local file system *)

Module Fs.

(** A path is its segments, counted from the project root. *)
Definition Path := list string.

Definition path_join (p : Path) (segment : string) : Path := p ++ [segment].
Definition path_text (p : Path) : string := String.concat "/" p.
Definition parent (p : Path) : Path := removelast p.

Inductive Node :=
| File (data : string)
| Directory.

Abbreviation FS := (gmap Path Node).

(** The root is a directory; below it, what the map says. *)
Definition node_at (fs : FS) (p : Path) : option Node :=
  match p with
  | [] => Some Directory
  | _ => fs !! p
  end.

Definition fs_existsSync (fs : FS) (p : Path) : bool :=
  bool_decide (is_Some (node_at fs p)).

(** [mkdirSync(p, { recursive: true })]: walks down from the root,
    creating what is missing; a file in the way is an error. *)
Fixpoint mkdir_recursive (fs : FS) (above below : Path) : Result FS :=
  match below with
  | [] => Ok fs
  | segment :: below' =>
      let p := above ++ [segment] in
      match fs !! p with
      | Some (File _) =>
          Err (error_of (match below' with [] => "EEXIST" | _ => "ENOTDIR" end))
      | Some Directory => mkdir_recursive fs p below'
      | None => mkdir_recursive (<[p := Directory]> fs) p below'
      end
  end.

Definition fs_mkdirSync (fs : FS) (p : Path) : Result FS :=
  mkdir_recursive fs [] p.

(** [writeFileSync(p, data)]: the parent must be a directory and [p]
    must not be one; the file is created or replaced. *)
Definition fs_writeFileSync (fs : FS) (p : Path) (data : string) : Result FS :=
  match node_at fs (parent p) with
  | Some Directory =>
      match node_at fs p with
      | Some Directory => Err (error_of "EISDIR")
      | _ => Ok (<[p := File data]> fs)
      end
  | Some (File _) => Err (error_of "ENOTDIR")
  | None => Err (error_of "ENOENT")
  end.

(** Every directory on the way down to [p], and [p] itself, exists as
    a directory. *)
Definition directory_chain (fs : FS) (p : Path) : Prop :=
  forall n, node_at fs (take n p) = Some Directory.

End Fs.

(** ** JSON text of a byte array *)

Module Json.

Definition decimal (n : N) : string :=
  DecimalString.NilZero.string_of_uint (N.to_uint n).

(** [Array.from(bytes)]: the numbers of the bytes. *)
Definition Array_from (bytes : list Byte.byte) : list N :=
  List.map Strings.Byte.to_N bytes.

(** [JSON.stringify] of an array of numbers. *)
Definition JSON_stringify (numbers : list N) : string :=
  "[" +:+ String.concat "," (List.map decimal numbers) +:+ "]".

Definition digit_of (c : Ascii.ascii) : option N :=
  let n := Ascii.N_of_ascii c in
  if ((48 <=? n) && (n <=? 57))%N then Some (n - 48)%N else None.

(** Reading the text back, as the scripts that import the wallet file
    do: [items] scans what follows the opening bracket; [current] is
    the number being read, [read] the numbers read so far. *)
Fixpoint items (s : string) (current : option N) (read : list N) : option (list N) :=
  match s with
  | EmptyString => None
  | String c s' =>
      match digit_of c with
      | Some d => items s' (Some (10 * default 0 current + d))%N read
      | None =>
          if Ascii.eqb c ","%char
          then match current with
               | Some n => items s' None (read ++ [n])
               | None => None
               end
          else if Ascii.eqb c "]"%char
          then match current, s' with
               | Some n, EmptyString => Some (read ++ [n])
               | None, EmptyString => match read with [] => Some [] | _ => None end
               | _, _ => None
               end
          else None
      end
  end.

Definition JSON_parse (s : string) : option (list N) :=
  match s with
  | String "["%char s' => items s' None []
  | _ => None
  end.

(** [new Uint8Array(numbers)] for numbers that are bytes. *)
Definition Uint8Array (numbers : list N) : option (list Byte.byte) :=
  mapM Strings.Byte.of_N numbers.

End Json.

(** ** keygen.ts *)

Module Keygen.
Import Fs Json.

Inductive Op :=
| Keypair_generate
| existsSync (p : Path)
| mkdirSync (p : Path) (recursive : bool)
| writeFileSync (p : Path) (data : string)
| console_log (text : string).

Definition Resp (op : Op) : Type :=
  match op with
  | Keypair_generate => Web3.Keypair
  | existsSync _ => bool
  | mkdirSync _ _ => Result unit
  | writeFileSync _ _ => Result unit
  | console_log _ => unit
  end.

Definition log (text : string) : Async Resp unit := call (perform (console_log text)).
Definition nl : string := String (Ascii.ascii_of_nat 10) "".

Section Script.
(** The directory of the script, and the SDK's base58 printer. *)
Variable __dirname : Path.
Variable toBase58 : Web3.PublicKey -> string.

Definition walletDir : Path := path_join __dirname "wallet".
Definition walletFile : Path := path_join walletDir "dev-wallet.json".

(** The script has no [try]: a file-system error ends the run. *)
Definition main : Async Resp unit :=
  kp ← call (perform Keypair_generate);
  present ← call (perform (existsSync walletDir));
  when (negb present) (await (perform (mkdirSync walletDir true)));;
  await (perform
    (writeFileSync walletFile (JSON_stringify (Array_from (Web3.secretKey kp)))));;
  log "You've generated a new Solana wallet!";;
  log ("Public Key: " +:+ toBase58 (Web3.publicKey kp));;
  log (nl +:+ "Wallet saved to: " +:+ path_text walletFile);;
  log (nl +:+ "Next steps:");;
  log "1. Run: yarn airdrop";;
  log "2. Run: yarn spl_init".
End Script.

(** The world of the script: the file system, and the key the
    generator returns in this run. *)
Definition world (generated : Web3.Keypair) : Handler Resp FS := fun op =>
  match op as o return FS -> Resp o * FS with
  | Keypair_generate => fun fs => (generated, fs)
  | existsSync p => fun fs => (fs_existsSync fs p, fs)
  | mkdirSync p _ => fun fs =>
      match fs_mkdirSync fs p with
      | Ok fs' => (Ok tt, fs')
      | Err e => (Err e, fs)
      end
  | writeFileSync p data => fun fs =>
      match fs_writeFileSync fs p data with
      | Ok fs' => (Ok tt, fs')
      | Err e => (Err e, fs)
      end
  | console_log _ => fun fs => (tt, fs)
  end.

(** What a run prints. *)
Definition printed (calls : list Op) : list string :=
  omap (fun op => match op with console_log text => Some text | _ => None end) calls.

(** The directories a run creates and the files it writes. *)
Definition made (calls : list Op) : list Path :=
  omap (fun op => match op with mkdirSync p _ => Some p | _ => None end) calls.
Definition written (calls : list Op) : list (Path * string) :=
  omap (fun op => match op with writeFileSync p data => Some (p, data) | _ => None end)
    calls.

(** The paths whose existence a run asks about. *)
Definition probed (calls : list Op) : list Path :=
  omap (fun op => match op with existsSync p => Some p | _ => None end) calls.

(** What the run says once the wallet is written. *)
Definition announcement (__dirname : Path) (toBase58 : Web3.PublicKey -> string)
    (kp : Web3.Keypair) : list string :=
  [ "You've generated a new Solana wallet!";
    "Public Key: " +:+ toBase58 (Web3.publicKey kp);
    nl +:+ "Wallet saved to: " +:+ path_text (walletFile __dirname);
    nl +:+ "Next steps:";
    "1. Run: yarn airdrop";
    "2. Run: yarn spl_init" ]%string.

(** The file-system calls of a run that finds the wallet directory
    present or not. *)
Definition fs_calls (__dirname : Path) (kp : Web3.Keypair) (present : bool) : list Op :=
  existsSync (walletDir __dirname)
  :: (if present then [] else [mkdirSync (walletDir __dirname) true])
  ++ [writeFileSync (walletFile __dirname)
        (JSON_stringify (Array_from (Web3.secretKey kp)))].

Definition sample_toBase58 (pk : Web3.PublicKey) : string :=
  match pk with
  | Web3.Address s => s
  | _ => ""
  end.

Definition sample_key (text : string) (secret : list Byte.byte) : Web3.Keypair :=
  {| Web3.publicKey := Web3.Address text; Web3.secretKey := secret |}.

Definition first_key : Web3.Keypair :=
  sample_key "So1anaKey1111111111111111111111111111111111" [Byte.x07; Byte.x2a; Byte.xff].
Definition second_key : Web3.Keypair :=
  sample_key "So1anaKey2222222222222222222222222222222222" [Byte.x00; Byte.x80; Byte.x10].

(** A checkout with the script's directory and nothing else, and the
    same after a first run. *)
Definition checkout : FS := {[ ["cluster1"%string] := Directory ]}.
Definition after_first_run : FS :=
  final (world first_key) (main ["cluster1"%string] sample_toBase58) checkout.

End Keygen.

(** ** nft_image.ts, nft_metadata.ts, nft_mint.ts *)

Module Nft.
Import Fs.

(** A umi public key is its base58 text. *)
Definition PublicKey := JsString.

(** The SDK's file wrapper and percentage, kept as the terms they are
    built from. *)
Inductive GenericFile :=
| createGenericFile (content : list Byte.byte) (fileName : JsString) (contentType : JsString).

Inductive PercentAmount :=
| percentAmount (percent : Q).

Record Attribute := { trait_type : JsString; value : JsString }.
Record FileEntry := { file_type : JsString; file_uri : JsString }.
Record Properties := { files : list FileEntry; category : JsString }.
Record CreatorShare := { creator_address : JsString; creator_share : Z }.

(** The metadata document of nft_metadata.ts. *)
Record Metadata := {
  md_name : JsString;
  md_symbol : JsString;
  md_description : JsString;
  image : JsString;
  attributes : list Attribute;
  properties : Properties;
  md_creators : list CreatorShare;
}.

Record Creator := { address : PublicKey; verified : bool; share : Z }.

(** The input of [createNft]. *)
Record CreateNft := {
  nft_mint : PublicKey;
  nft_name : JsString;
  nft_symbol : JsString;
  nft_uri : JsString;
  nft_sellerFeeBasisPoints : PercentAmount;
  nft_creators : list Creator;
  nft_isMutable : bool;
  nft_primarySaleHappened : bool;
}.

Inductive Op :=
| readFile (p : Path)
| uploader_upload (files : list GenericFile)
| uploader_uploadJson (metadata : Metadata)
| generateSigner
| sendAndConfirm (tx : CreateNft)
| console_log (text : string)
| console_error (text : string) (args : list SplMetadata.JsValue).

Definition Resp (op : Op) : Type :=
  match op with
  | readFile _ => Result (list Byte.byte)
  | uploader_upload _ => Result (list JsString)
  | uploader_uploadJson _ => Result JsString
  | generateSigner => PublicKey
  | sendAndConfirm _ => Result (list Byte.byte)
  | console_log _ => unit
  | console_error _ _ => unit
  end.

(** Calls that leave the machine: the uploads and the submission. *)
Definition remote (op : Op) : bool :=
  match op with
  | uploader_upload _ | uploader_uploadJson _ | sendAndConfirm _ => true
  | _ => false
  end.

Definition log (text : string) : Async Resp unit := call (perform (console_log text)).
Definition error (text : string) (args : list SplMetadata.JsValue) : Async Resp unit :=
  call (perform (console_error text args)).
Definition nl : string := String (Ascii.ascii_of_nat 10) "".

(** [URI.includes("<PASTE") || URI.length < 10], the check both
    nft_metadata.ts and nft_mint.ts make on the URI pasted in. *)
Definition uri_placeholder (uri : JsString) : bool :=
  js_includes uri (js "<PASTE") || (js_length uri <? 10).

(** *** nft_image.ts *)

Definition IMAGE_TYPE : JsString := js "image/png".

(** [path.join(__dirname, "..", "generug.png")], for a script directory
    below the root. *)
Definition IMAGE_PATH (__dirname : Path) : Path :=
  path_join (parent __dirname) "generug.png".

(** Of the console output, the lines of the validation failures and of
    the [catch] blocks are kept in these three models; progress lines
    are left out. *)
Definition image_main (__dirname : Path) : Async Resp unit :=
  try_catch
    (imageBuffer ← await (perform (readFile (IMAGE_PATH __dirname)));
     let genericFile := createGenericFile imageBuffer (js "generug.png") IMAGE_TYPE in
     uris ← await (perform (uploader_upload [genericFile]));
     mret tt)
    (fun e =>
       error (nl +:+ "❌ Error uploading image:") [SplMetadata.VError e];;
       log (nl +:+ "Troubleshooting:");;
       log "  1. Make sure your wallet has enough SOL";;
       log "  2. Check that generug.png exists in the ts/ folder";;
       log "  3. Verify your internet connection").

(** *** nft_metadata.ts *)

Record NftText := { name : JsString; symbol : JsString; description : JsString }.

Definition NFT_CONFIG : NftText := {|
  name := js "Generug #1";
  symbol := js "GRUG";
  description := js "A unique generative pixel art rug featuring geometric patterns in autumn colors. Hand-crafted digital art with intricate grid design and traditional fringe details."
|}.

Definition ATTRIBUTES : list Attribute :=
  [ {| trait_type := js "Background"; value := js "Cream" |};
    {| trait_type := js "Primary Color"; value := js "Gold" |};
    {| trait_type := js "Pattern"; value := js "Geometric Grid" |};
    {| trait_type := js "Style"; value := js "Pixel Art" |};
    {| trait_type := js "Colors"; value := js "Autumn Palette" |};
    {| trait_type := js "Edition"; value := js "1 of 1" |} ].

(** The value in the source. *)
Definition source_IMAGE_URI : JsString :=
  js "https://gateway.irys.xyz/5SrwJfQbqZQvzKQQYK1ticwqirYV3DmSiD73ecuVedgY".

Definition metadata_of (IMAGE_URI : JsString) (signer : PublicKey) : Metadata := {|
  md_name := name NFT_CONFIG;
  md_symbol := symbol NFT_CONFIG;
  md_description := description NFT_CONFIG;
  image := IMAGE_URI;
  attributes := ATTRIBUTES;
  properties := {|
    files := [ {| file_type := js "image/png"; file_uri := IMAGE_URI |} ];
    category := js "image" |};
  md_creators := [ {| creator_address := signer; creator_share := 100 |} ];
|}.

(** [IMAGE_URI] is the constant the operator pastes in; [signer] is the
    public key of the wallet. *)
Definition metadata_main (IMAGE_URI : JsString) (signer : PublicKey) : Async Resp unit :=
  try_catch
    (when (uri_placeholder IMAGE_URI)
       (error (nl +:+ "❌ ERROR: Please update IMAGE_URI with the URI from Step 1") [];;
        log "   Run 'yarn nft_image' first, then paste the URI here.";;
        process_exit 1);;
     let metadata := metadata_of IMAGE_URI signer in
     metadataUri ← await (perform (uploader_uploadJson metadata));
     mret tt)
    (fun e =>
       error (nl +:+ "❌ Error uploading metadata:") [SplMetadata.VError e];;
       log (nl +:+ "Troubleshooting:");;
       log "  1. Make sure your wallet has enough SOL";;
       log "  2. Verify the IMAGE_URI is correct";;
       log "  3. Check your internet connection").

(** *** nft_mint.ts *)

Record NftConfig := {
  cfg_name : JsString; cfg_symbol : JsString; sellerFeeBasisPoints : Z }.

Definition MINT_CONFIG : NftConfig := {|
  cfg_name := js "Generug #1";
  cfg_symbol := js "GRUG";
  sellerFeeBasisPoints := 500;
|}.

Definition source_METADATA_URI : JsString :=
  js "https://gateway.irys.xyz/2MGBorJjgj4wqine3KAETUmoavZNYt67n3gQVt1zriHw".

Definition nft_of (METADATA_URI : JsString) (signer mint : PublicKey) : CreateNft := {|
  nft_mint := mint;
  nft_name := cfg_name MINT_CONFIG;
  nft_symbol := cfg_symbol MINT_CONFIG;
  nft_uri := METADATA_URI;
  nft_sellerFeeBasisPoints :=
    percentAmount (number_of (sellerFeeBasisPoints MINT_CONFIG) / 100);
  nft_creators := [ {| address := signer; verified := true; share := 100 |} ];
  nft_isMutable := true;
  nft_primarySaleHappened := false;
|}.

Definition mint_main (METADATA_URI : JsString) (signer : PublicKey) : Async Resp unit :=
  try_catch
    (when (uri_placeholder METADATA_URI)
       (error (nl +:+ "❌ ERROR: Please update METADATA_URI with the URI from Step 2") [];;
        log "   Run 'yarn nft_metadata' first, then paste the URI here.";;
        process_exit 1);;
     mint ← call (perform generateSigner);
     let tx := nft_of METADATA_URI signer mint in
     result ← await (perform (sendAndConfirm tx));
     mret tt)
    (fun e =>
       error (nl +:+ "❌ Error minting NFT:") [SplMetadata.VError e];;
       log (nl +:+ "Troubleshooting:");;
       log "  1. Make sure your wallet has enough SOL (~0.01 SOL needed)";;
       log "  2. Verify the METADATA_URI is correct";;
       log "  3. Check your internet connection";;
       log "  4. Ensure Steps 1 and 2 completed successfully").

(** The calls of a run that are not console output. *)
Definition quiet (op : Op) : bool :=
  match op with
  | console_log _ | console_error _ _ => false
  | _ => true
  end.
Definition calls (trace : list Op) : list Op := List.filter quiet trace.

(** A remote side answering every call the same way. *)
Definition scripted (read : Result (list Byte.byte)) (upload : Result (list JsString))
    (uploadJson : Result JsString) (signer : PublicKey)
    (send : Result (list Byte.byte)) : Handler Resp unit := fun op =>
  match op as o return unit -> Resp o * unit with
  | readFile _ => fun w => (read, w)
  | uploader_upload _ => fun w => (upload, w)
  | uploader_uploadJson _ => fun w => (uploadJson, w)
  | generateSigner => fun w => (signer, w)
  | sendAndConfirm _ => fun w => (send, w)
  | console_log _ => fun w => (tt, w)
  | console_error _ _ => fun w => (tt, w)
  end.

Definition sample_signer : PublicKey := js "9xQeWvG816bUx9EPjHmaT23yvVM2ZWbrrpZb9PusVFin".
Definition sample_mint : PublicKey := js "NFTmint1111111111111111111111111111111111111".

End Nft.

(** ** What the runs are compared with *)

Module Expected.

(** The account-creation transaction of spl_transfer.ts for recipient
    [to]. *)
Definition recipient_account (to : Web3.PublicKey) : Web3.PublicKey :=
  Web3.AssociatedTokenAddress SplTransfer.mint to false
    Web3.TOKEN_2022_PROGRAM_ID Web3.ASSOCIATED_TOKEN_PROGRAM_ID.

Definition sender_account (keypair : Web3.Keypair) : Web3.PublicKey :=
  Web3.AssociatedTokenAddress SplTransfer.mint (Web3.publicKey keypair) false
    Web3.TOKEN_2022_PROGRAM_ID Web3.ASSOCIATED_TOKEN_PROGRAM_ID.

Definition recipient_creation (keypair : Web3.Keypair) (to : Web3.PublicKey) : Web3.Op :=
  Web3.sendAndConfirmTransaction
    [Web3.createAssociatedTokenAccountInstruction
       (Web3.publicKey keypair) (recipient_account to) to SplTransfer.mint
       Web3.TOKEN_2022_PROGRAM_ID Web3.ASSOCIATED_TOKEN_PROGRAM_ID]
    [keypair].

(** One hundred tokens, and the fee declared for them. *)
Definition transfer (keypair : Web3.Keypair) (to : Web3.PublicKey) : Web3.Op :=
  Web3.transferCheckedWithFee keypair (sender_account keypair) SplTransfer.mint
    (recipient_account to) (Web3.publicKey keypair)
    100000000000 9 1000000000 Web3.TOKEN_2022_PROGRAM_ID.

(** The metadata account spl_metadata.ts asks for, once the URI is
    known. *)
Definition metadata_account (cfg : SplMetadata.Config) (signer : SplMetadata.PublicKey)
    (metadataUri : JsString) : SplMetadata.CreateMetadataAccountV3 := {|
  SplMetadata.mint := SplMetadata.MINT_ADDRESS cfg;
  SplMetadata.mintAuthority := signer;
  SplMetadata.payer := signer;
  SplMetadata.updateAuthority := signer;
  SplMetadata.data := {|
    SplMetadata.data_name := SplMetadata.name (SplMetadata.TOKEN_METADATA cfg);
    SplMetadata.data_symbol := SplMetadata.symbol (SplMetadata.TOKEN_METADATA cfg);
    SplMetadata.data_uri := metadataUri;
    SplMetadata.sellerFeeBasisPoints := 0;
    SplMetadata.creators :=
      [ {| SplMetadata.address := signer; SplMetadata.verified := true;
           SplMetadata.share := 100 |} ];
    SplMetadata.collection := None;
    SplMetadata.uses := None |};
  SplMetadata.isMutable := true;
  SplMetadata.collectionDetails := None;
|}.

(** The calls of a run of spl_metadata.ts that are not console output. *)
Definition metadata_calls (trace : list SplMetadata.Op) : list SplMetadata.Op :=
  List.filter SplMetadata.remote trace.

(** The source configuration of spl_metadata.ts with another mint
    address. *)
Definition upload_config (mint_address : JsString) : SplMetadata.Config := {|
  SplMetadata.MINT_ADDRESS := mint_address;
  SplMetadata.TOKEN_METADATA := SplMetadata.TOKEN_METADATA SplMetadata.source_config;
  SplMetadata.UPLOAD_METADATA_JSON := true;
  SplMetadata.RICH_METADATA := SplMetadata.RICH_METADATA SplMetadata.source_config;
|}.

(** The two texts of the [catch] of spl_metadata.ts, as the source
    prints them. *)
Definition nft_lines : list SplMetadata.Op :=
  [ SplMetadata.console_error
      (SplMetadata.nl +:+ "⚠️  IMPORTANT: The mint address appears to be an NFT, not a fungible SPL token!") [];
    SplMetadata.console_log (SplMetadata.nl +:+ "This error occurs when:");
    SplMetadata.console_log "  - The MINT_ADDRESS points to an NFT mint (not an SPL token)";
    SplMetadata.console_log "  - The mint already has NFT metadata attached";
    SplMetadata.console_log (SplMetadata.nl +:+ "Solution:");
    SplMetadata.console_log "  1. Make sure you're using the mint address from spl_init.ts (your SPL token)";
    SplMetadata.console_log "  2. Do NOT use the NFT mint address from nft_mint.ts";
    SplMetadata.console_log "  3. Verify the mint address in spl_init.ts output";
    SplMetadata.console_log "  4. If you created a new token, use that mint address instead" ].

Definition generic_lines : list SplMetadata.Op :=
  [ SplMetadata.console_log (SplMetadata.nl +:+ "Troubleshooting:");
    SplMetadata.console_log "  1. Make sure your wallet has enough SOL (~0.01 SOL needed)";
    SplMetadata.console_log "  2. Verify the MINT_ADDRESS is correct (from spl_init.ts output)";
    SplMetadata.console_log "  3. Check that the token mint exists (run spl_init.ts first)";
    SplMetadata.console_log "  4. Ensure you're the mint authority";
    SplMetadata.console_log "  5. Check your internet connection" ].

(** The first line of the [catch], for a thrown value with message
    [m]: the message when it is a non-empty string, the value itself
    otherwise. *)
Definition error_line (m : option JsString) : SplMetadata.Op :=
  SplMetadata.console_error (SplMetadata.nl +:+ "❌ Error creating metadata:")
    [ match m with
      | Some (c :: text) => SplMetadata.VString (c :: text)
      | _ => SplMetadata.VError (ErrorValue m)
      end ].

(** A mint address of 46 code units that is not base58 and spells the
    marker. *)
Definition marker_address : JsString :=
  js "ProgrammableNonFungibleProgrammableNonFungible".

(** A checkout where the wallet directory is there and a directory
    sits at the path of the wallet file. *)
Definition directory_at_file : Fs.FS :=
  {[ ["cluster1"%string] := Fs.Directory;
     ["cluster1"; "wallet"]%string := Fs.Directory;
     ["cluster1"; "wallet"; "dev-wallet.json"]%string := Fs.Directory ]}.

(** A checkout where a regular file sits at the wallet path. *)
Definition blocked_checkout : Fs.FS :=
  {[ ["cluster1"%string] := Fs.Directory;
     ["cluster1"; "wallet"]%string := Fs.File "not a directory" ]}.

End Expected.

(** * Properties *)

(** ** Running scripts *)

Section RunFacts.
Context {Op : Type} {Resp : Op -> Type} {W : Type} (h : Handler Resp W).

Lemma run_seen {R} (s : Script Resp R) w seen :
  run h s w seen = (seen ++ trace h s w, final h s w, outcome h s w).
Proof.
  unfold trace, final, outcome.
  revert w seen. induction s as [r | op k IH]; intros w seen; cbn.
  - by rewrite app_nil_r.
  - destruct (h op w) as [r w']. rewrite (IH r w' (seen ++ [op])), (IH r w' [op]).
    cbn. by rewrite <- app_assoc.
Qed.

Lemma trace_Vis {R} op (k : Resp op -> Script Resp R) w :
  trace h (Vis op k) w = op :: trace h (k (h op w).1) (h op w).2.
Proof.
  unfold trace at 1. cbn. destruct (h op w) as [r w']. by rewrite run_seen.
Qed.

Lemma outcome_Vis {R} op (k : Resp op -> Script Resp R) w :
  outcome h (Vis op k) w = outcome h (k (h op w).1) (h op w).2.
Proof.
  unfold outcome at 1. cbn. destruct (h op w) as [r w']. by rewrite run_seen.
Qed.

Lemma final_Vis {R} op (k : Resp op -> Script Resp R) w :
  final h (Vis op k) w = final h (k (h op w).1) (h op w).2.
Proof.
  unfold final at 1. cbn. destruct (h op w) as [r w']. by rewrite run_seen.
Qed.

(** A script followed by another: the calls of the first, then the
    calls of the second from where the first left the world. *)
Lemma trace_script_bind {A B} (m : Script Resp A) (f : A -> Script Resp B) w :
  trace h (script_bind m f) w =
  trace h m w ++ trace h (f (outcome h m w)) (final h m w).
Proof.
  revert w. induction m as [a | op k IH]; intros w; cbn.
  - done.
  - rewrite !trace_Vis, outcome_Vis, final_Vis, IH. reflexivity.
Qed.

Lemma outcome_script_bind {A B} (m : Script Resp A) (f : A -> Script Resp B) w :
  outcome h (script_bind m f) w = outcome h (f (outcome h m w)) (final h m w).
Proof.
  revert w. induction m as [a | op k IH]; intros w; cbn.
  - done.
  - rewrite !outcome_Vis, final_Vis, IH. done.
Qed.

Lemma final_script_bind {A B} (m : Script Resp A) (f : A -> Script Resp B) w :
  final h (script_bind m f) w = final h (f (outcome h m w)) (final h m w).
Proof.
  revert w. induction m as [a | op k IH]; intros w; cbn.
  - done.
  - rewrite !final_Vis, outcome_Vis, IH. done.
Qed.

(** What a [catch] adds to a body that threw. *)
Lemma trace_try_catch_thrown {A} (body : Async Resp A) handler w e :
  outcome h body w = Thrown e ->
  trace h (try_catch body handler) w =
  trace h body w ++ trace h (handler e) (final h body w).
Proof. intros He. unfold try_catch. by rewrite trace_script_bind, He. Qed.

Lemma outcome_try_catch_thrown {A} (body : Async Resp A) handler w e :
  outcome h body w = Thrown e ->
  outcome h (try_catch body handler) w = outcome h (handler e) (final h body w).
Proof. intros He. unfold try_catch. by rewrite outcome_script_bind, He. Qed.

(** A body that did not throw is left alone by the [catch]. *)
Lemma try_catch_not_thrown {A} (body : Async Resp A) handler w :
  (forall e, outcome h body w <> Thrown e) ->
  trace h (try_catch body handler) w = trace h body w /\
  outcome h (try_catch body handler) w = outcome h body w.
Proof.
  intros Hne. unfold try_catch.
  rewrite trace_script_bind, outcome_script_bind.
  destruct (outcome h body w) as [a | e | n]; cbn.
  - unfold trace at 2. cbn. by rewrite app_nil_r.
  - by destruct (Hne e).
  - unfold trace at 2. cbn. by rewrite app_nil_r.
Qed.
End RunFacts.

(** Answers the next call in the goal, naming the answer, and
    simplifies. *)
Tactic Notation "answer" constr(h) "as" simple_intropattern(r) :=
  match goal with
  | |- context [h ?op ?w] => destruct (h op w) as [r ?] eqn:?; cbn in *
  end.

(** Answers every call left in the goal, whatever the answer. *)
Ltac settle h :=
  repeat match goal with
  | |- context [bool_decide (is_Some ?x)] => is_var x; destruct x; cbn in *
  | |- context [h ?op ?w] => destruct (h op w) as [[] ?] eqn:?; cbn in *
  end.

(** Goes through the [catch] of spl_metadata.ts for the thrown value
    [e], of whatever kind. *)
Ltac caught h e :=
  destruct e as [? | [[] |] | ?]; cbn; settle h;
  try (destruct (SplMetadata.is_nft_conflict _); cbn; settle h).

(** ** JavaScript strings *)

Lemma js_startsWith_spec (s pat : JsString) :
  js_startsWith s pat = true <-> exists post, s = pat ++ post.
Proof.
  revert s. induction pat as [| p pat IH]; intros s; cbn.
  - split; [by exists s | done].
  - destruct s as [| c s]; cbn.
    + split; [done | by intros [post ?]].
    + rewrite andb_true_iff, N.eqb_eq, IH. split.
      * intros [-> [post ->]]. by exists post.
      * intros [post [= -> ->]]. split; [done | by exists post].
Qed.

(** [includes] finds exactly the strings that contain the pattern. *)
Lemma js_includes_spec (s pat : JsString) :
  js_includes s pat = true <-> exists pre post, s = pre ++ pat ++ post.
Proof.
  induction s as [| c s IH].
  - cbn [js_includes]. rewrite orb_false_r, js_startsWith_spec. split.
    + intros [post ->]. by exists [], post.
    + intros [pre [post H]]. destruct pre as [| ? pre]; [by exists post | done].
  - cbn [js_includes]. rewrite orb_true_iff, js_startsWith_spec, IH. split.
    + intros [[post ->] | [pre [post ->]]].
      * by exists [], post.
      * by exists (c :: pre), post.
    + intros [pre [post H]]. destruct pre as [| c' pre].
      * left. by exists post.
      * injection H as -> ->. right. by exists pre, post.
Qed.

Lemma js_includes_truthy (s pat : JsString) :
  pat <> [] -> js_includes s pat = true -> js_truthy s = true.
Proof.
  intros Hpat [pre [post ->]]%js_includes_spec.
  destruct pre; [destruct pat |]; done.
Qed.

(** ** spl_transfer.ts: the fee *)

Module TransferFacts.
Import Web3 SplTransfer.

Lemma calculatedFee_floor (A : Z) :
  0 <= A -> calculatedFee A = A * TRANSFER_FEE_BASIS_POINTS / 10000.
Proof.
  intros HA. unfold calculatedFee, bigint_div, BigInt, TRANSFER_FEE_BASIS_POINTS.
  apply Z.quot_div_nonneg; lia.
Qed.

Lemma fee_min (A : Z) : fee A = Z.min (calculatedFee A) MAX_FEE.
Proof.
  unfold fee. destruct (Z.gtb_spec (calculatedFee A) MAX_FEE); lia.
Qed.

(** A whole number of tokens of either sign: the division is exact,
    so truncation and floor agree there too. *)
Lemma calculatedFee_tokens (tokens : Z) :
  calculatedFee (transferAmount tokens) = tokens * 10000000.
Proof.
  unfold calculatedFee, transferAmount, bigint_div, BigInt,
    TRANSFER_FEE_BASIS_POINTS, DECIMALS.
  replace (tokens * 10 ^ 9 * 100) with (tokens * 10000000 * 10000) by lia.
  apply Z.quot_mul. lia.
Qed.

(** C1. For every non-negative transfer amount [A] the fee the script
    computes is [min (floor (A * TRANSFER_FEE_BASIS_POINTS / 10000))
    MAX_FEE], BigInt division truncating; the amount of the source,
    100 tokens scaled by 10^9, has a computed fee of exactly 10^9,
    which is the cap. *)
Theorem fee_formula (A : Z) (HA : 0 <= A) :
  fee A = Z.min (A * TRANSFER_FEE_BASIS_POINTS / 10000) MAX_FEE /\
  transferAmount TRANSFER_AMOUNT = 100 * 10 ^ 9 /\
  calculatedFee (100 * 10 ^ 9) = MAX_FEE /\
  fee (100 * 10 ^ 9) = 10 ^ 9.
Proof.
  split; [| by vm_compute].
  by rewrite fee_min, calculatedFee_floor.
Qed.

Lemma fee_formula_witness :
  0 <= 123456789 /\
  (fee 123456789 = Z.min (123456789 * TRANSFER_FEE_BASIS_POINTS / 10000) MAX_FEE /\
   transferAmount TRANSFER_AMOUNT = 100 * 10 ^ 9 /\
   calculatedFee (100 * 10 ^ 9) = MAX_FEE /\
   fee (100 * 10 ^ 9) = 10 ^ 9).
Proof. split; [lia | apply fee_formula; lia]. Defined.

(** C9. For every non-negative amount the fee is at most [MAX_FEE]
    and at most the amount itself. *)
Theorem fee_bounded (A : Z) (HA : 0 <= A) :
  0 <= fee A /\ fee A <= MAX_FEE /\ fee A <= A.
Proof.
  rewrite fee_min, calculatedFee_floor by done.
  unfold TRANSFER_FEE_BASIS_POINTS, MAX_FEE, BigInt.
  assert (0 <= A * 100 / 10000) by (apply Z.div_pos; lia).
  assert (A * 100 / 10000 <= A).
  { apply Z.div_le_upper_bound; lia. }
  lia.
Qed.

Lemma fee_bounded_witness :
  0 <= 250 * 10 ^ 9 /\
  (0 <= fee (250 * 10 ^ 9) /\ fee (250 * 10 ^ 9) <= MAX_FEE /\
   fee (250 * 10 ^ 9) <= 250 * 10 ^ 9).
Proof. split; [lia | apply fee_bounded; lia]. Defined.

(** The amount and fee declared by the transfer calls of a run. *)
Lemma declared_fee W (h : Handler Resp W) w keypair :
  Forall (fun op =>
    match op with
    | transferCheckedWithFee _ _ _ _ _ amount decimals declared _ =>
        amount = transferAmount TRANSFER_AMOUNT /\ decimals = DECIMALS /\
        declared = fee amount
    | _ => True
    end) (trace h (main keypair) w).
Proof.
  unfold trace, main. cbn.
  answer h as generated. answer h as [[info |] | e].
  - answer h as [sig | e]; [answer h as [account | e] |]; repeat constructor.
  - answer h as [sig | e]; [| repeat constructor].
    answer h as [sig' | e]; [answer h as [account | e] |]; repeat constructor.
  - repeat constructor.
Qed.

(** C6, as the code has it. Every run starts by drawing a keypair
    from the generator, and the recipient of all its calls is the
    public key of that keypair: the account it looks up, the account
    it creates and the destination of the transfer are the associated
    token account of the literal mint and of that key. *)
Theorem recipient_is_generated W (h : Handler Resp W) w keypair :
  let to := publicKey (h Keypair_generate w).1 in
  head (trace h (main keypair) w) = Some Keypair_generate /\
  Forall (uses_recipient to) (trace h (main keypair) w) /\
  Forall (eq to) (recipients (trace h (main keypair) w)).
Proof.
  unfold trace, main. cbn.
  answer h as generated. answer h as [[info |] | e].
  - answer h as [sig | e]; [answer h as [account | e] |];
      repeat first [done | split | constructor].
  - answer h as [sig | e]; [| repeat first [done | eexists | split | constructor]].
    answer h as [sig' | e]; [answer h as [account | e] |];
      repeat first [done | eexists | split | constructor].
  - repeat first [done | split | constructor].
Qed.

(** C6, as stated, fails: two runs of the script with the same wallet
    on the same ledger, differing only in what the generator returns,
    transfer to different recipients. *)
Lemma recipient_differs_between_runs :
  recipients (trace Devnet.node (main Devnet.wallet) (Devnet.fresh 0 [Devnet.alice]))
    = [publicKey Devnet.alice; publicKey Devnet.alice] /\
  recipients (trace Devnet.node (main Devnet.wallet) (Devnet.fresh 0 [Devnet.bob]))
    = [publicKey Devnet.bob; publicKey Devnet.bob] /\
  publicKey Devnet.alice <> publicKey Devnet.bob.
Proof. by vm_compute. Qed.

End TransferFacts.

(** ** airdrop.ts *)

Module AirdropFacts.
Import Web3 Airdrop.

Lemma sufficient_balance (balance : Z) :
  (0.5 * number_of LAMPORTS_PER_SOL <= number_of balance)%Q ->
  number_ge (number_of balance) (0.5 * number_of LAMPORTS_PER_SOL) = true.
Proof. intros H. unfold number_ge. by apply Qle_bool_iff. Qed.

(** C3. When the balance query answers at least 0.5 SOL, the run is
    that one query: it returns normally, requests no airdrop and makes
    no call that changes ledger state, and leaves the world as the
    query left it. *)
Theorem funded_run_only_reads W (h : Handler Resp W) w keypair balance
    (Hanswer : (h (getBalance (publicKey keypair)) w).1 = Ok balance)
    (Hfunded : (0.5 * number_of LAMPORTS_PER_SOL <= number_of balance)%Q) :
  trace h (main keypair) w = [getBalance (publicKey keypair)] /\
  filter (fun op => mutates op = true) (trace h (main keypair) w) = [] /\
  outcome h (main keypair) w = Normal tt /\
  final h (main keypair) w = (h (getBalance (publicKey keypair)) w).2.
Proof.
  unfold trace, outcome, final, main. cbn.
  answer h as r. subst r. cbn.
  rewrite (sufficient_balance _ Hfunded). done.
Qed.

Lemma funded_run_only_reads_witness :
  trace Devnet.node (main Devnet.wallet) (Devnet.fresh 500000000 [])
    = [getBalance (publicKey Devnet.wallet)] /\
  filter (fun op => mutates op = true)
    (trace Devnet.node (main Devnet.wallet) (Devnet.fresh 500000000 [])) = [] /\
  outcome Devnet.node (main Devnet.wallet) (Devnet.fresh 500000000 []) = Normal tt /\
  final Devnet.node (main Devnet.wallet) (Devnet.fresh 500000000 [])
    = (Devnet.node (getBalance (publicKey Devnet.wallet)) (Devnet.fresh 500000000 [])).2.
Proof.
  apply (funded_run_only_reads Devnet.Ledger Devnet.node
           (Devnet.fresh 500000000 []) Devnet.wallet 500000000);
    [reflexivity | by vm_compute].
Defined.

(** Below the threshold the airdrop is requested. *)
Lemma unfunded_run_requests W (h : Handler Resp W) w keypair balance :
  (h (getBalance (publicKey keypair)) w).1 = Ok balance ->
  (number_of balance < 0.5 * number_of LAMPORTS_PER_SOL)%Q ->
  exists rest,
    trace h (main keypair) w =
    getBalance (publicKey keypair)
    :: requestAirdrop (publicKey keypair) (2 * LAMPORTS_PER_SOL) :: rest.
Proof.
  intros Hanswer Hlow. unfold trace, main. cbn.
  answer h as r. subst r. cbn.
  assert (number_ge (number_of balance) (0.5 * number_of LAMPORTS_PER_SOL) = false)
    as ->.
  { unfold number_ge. apply not_true_is_false. rewrite Qle_bool_iff.
    by apply Qlt_not_le. }
  cbn. answer h as [txhash | e]; [| by eexists].
  answer h as [latest | e]; [| by eexists].
  answer h as [[] | e]; [| by eexists].
  answer h as [b | e]; by eexists.
Qed.

(** On the sample ledger, a run that airdrops is followed by a run
    that only reads. *)
Lemma second_run_only_reads :
  let w := Devnet.fresh 0 [] in
  let w' := final Devnet.node (main Devnet.wallet) w in
  filter (fun op => mutates op = true) (trace Devnet.node (main Devnet.wallet) w)
    = [requestAirdrop (publicKey Devnet.wallet) 2000000000] /\
  trace Devnet.node (main Devnet.wallet) w' = [getBalance (publicKey Devnet.wallet)] /\
  final Devnet.node (main Devnet.wallet) w' = w'.
Proof. by vm_compute. Qed.

End AirdropFacts.

(** ** spl_init.ts *)

Module InitFacts.
Import Web3 SplInit.

Lemma transaction_order keypair mint mintLen mintLamports :
  precedes is_initializeTransferFeeConfig is_initializeMint
    (transaction keypair mint mintLen mintLamports).
Proof. exists 1%nat, 2%nat. repeat split. lia. Qed.

(** C2. A run submits at most one transaction, and only when the
    rent query succeeded; that transaction has exactly three
    instructions: the system account creation for the mint, the
    transfer-fee-config initialization, the mint initialization, in
    this order, so the fee initialization precedes the mint
    initialization. *)
Theorem submitted_transaction_order W (h : Handler Resp W) w getMintLen keypair :
  let mintKeypair := (h Keypair_generate w).1 in
  let mint := publicKey mintKeypair in
  let mintLen := getMintLen [TransferFeeConfig] in
  let rent :=
    (h (getMinimumBalanceForRentExemption mintLen) (h Keypair_generate w).2).1 in
  submitted (trace h (main getMintLen keypair) w) =
    match rent with
    | Ok mintLamports =>
        [ [ SystemProgram_createAccount
              (publicKey keypair) mint mintLen mintLamports TOKEN_2022_PROGRAM_ID;
            createInitializeTransferFeeConfigInstruction
              mint (publicKey keypair) (publicKey keypair) 100 1000000000
              TOKEN_2022_PROGRAM_ID;
            createInitializeMintInstruction
              mint 9 (publicKey keypair) None TOKEN_2022_PROGRAM_ID ] ]
    | Err _ => []
    end /\
  Forall (precedes is_initializeTransferFeeConfig is_initializeMint)
    (submitted (trace h (main getMintLen keypair) w)) /\
  Forall (fun tx => List.map is_createAccount tx = [true; false; false] /\
                    List.map is_initializeTransferFeeConfig tx = [false; true; false] /\
                    List.map is_initializeMint tx = [false; false; true])
    (submitted (trace h (main getMintLen keypair) w)).
Proof.
  unfold trace, main. cbn.
  answer h as mintKeypair. answer h as [mintLamports | e]; [| done].
  assert (Forall (precedes is_initializeTransferFeeConfig is_initializeMint)
            [transaction keypair (publicKey mintKeypair)
               (getMintLen [TransferFeeConfig]) mintLamports]) as Horder.
  { constructor; [apply transaction_order | constructor]. }
  answer h as [signature | e]; cbn; (split; [done | split; [exact Horder |]]);
    repeat constructor.
Qed.

(** On the sample ledger the whole run is: draw the mint key, ask for
    the rent, submit. *)
Lemma sample_run :
  trace Devnet.node (main (fun _ => 278) Devnet.wallet) (Devnet.fresh 0 [Devnet.alice]) =
  [ Keypair_generate;
    getMinimumBalanceForRentExemption 278;
    sendAndConfirmTransaction
      (transaction Devnet.wallet (publicKey Devnet.alice) 278 2825760)
      [Devnet.wallet; Devnet.alice] ].
Proof. by vm_compute. Qed.

End InitFacts.

(** ** spl_mint.ts *)

Module MintFacts.
Import Web3 SplMint.

Lemma tokensToMint_value : tokensToMint = AMOUNT_TO_MINT * 10 ^ DECIMALS.
Proof. reflexivity. Qed.

(** C5. The calls of a run, by what the node answers about the
    associated token account.  When the account exists, the run is the
    lookup and the mint-increase, with no creation transaction.  When
    it is absent, the creation transaction is submitted first, alone
    in its own transaction, and the mint-increase follows once it is
    confirmed.  The minted amount is [AMOUNT_TO_MINT] scaled by
    [10 ^ DECIMALS]. *)
Theorem calls_by_account_state W (h : Handler Resp W) w keypair :
  let lookup := h (getAccountInfo (ata keypair)) w in
  let increase :=
    mintTo keypair mint (ata keypair) keypair
      (AMOUNT_TO_MINT * 10 ^ DECIMALS) TOKEN_2022_PROGRAM_ID in
  let creation :=
    sendAndConfirmTransaction
      [createAssociatedTokenAccountInstruction
         (publicKey keypair) (ata keypair) (publicKey keypair) mint
         TOKEN_2022_PROGRAM_ID ASSOCIATED_TOKEN_PROGRAM_ID]
      [keypair] in
  trace h (main keypair) w =
    match lookup.1 with
    | Ok (Some _) => [getAccountInfo (ata keypair); increase]
    | Ok None =>
        match (h creation lookup.2).1 with
        | Ok _ => [getAccountInfo (ata keypair); creation; increase]
        | Err _ => [getAccountInfo (ata keypair); creation]
        end
    | Err _ => [getAccountInfo (ata keypair)]
    end.
Proof.
  unfold trace, main. cbn.
  answer h as [[info |] | e].
  - by answer h as [sig | e].
  - unfold createAtaTx, Transaction_add, Transaction_new. cbn.
    answer h as [sig | e]; [| done].
    by answer h as [sig' | e].
  - done.
Qed.

(** Run twice on the sample ledger: the first run creates the account
    and mints, the second only mints. *)
Lemma second_run_skips_creation :
  let w := Devnet.fresh 0 [] in
  let w' := final Devnet.node (main Devnet.wallet) w in
  let increase :=
    mintTo Devnet.wallet mint (ata Devnet.wallet) Devnet.wallet
      1000000000000000000 TOKEN_2022_PROGRAM_ID in
  trace Devnet.node (main Devnet.wallet) w =
    [ getAccountInfo (ata Devnet.wallet);
      sendAndConfirmTransaction (createAtaTx Devnet.wallet) [Devnet.wallet];
      increase ] /\
  trace Devnet.node (main Devnet.wallet) w' =
    [ getAccountInfo (ata Devnet.wallet); increase ].
Proof. by vm_compute. Qed.

End MintFacts.

(** ** spl_metadata.ts *)

Module MetadataFacts.
Import SplMetadata.

Section Sdk.
Variable isPublicKey : JsString -> bool.
Variable InvalidPublicKeyError : JsString -> JsString.
Context {W : Type} (h : Handler Resp W).

Local Abbreviation body := (body isPublicKey InvalidPublicKeyError).
Local Abbreviation main := (main isPublicKey InvalidPublicKeyError).

(** The code's test for the conflict is the containment test: a
    message that contains the marker is not empty. *)
Lemma is_nft_conflict_contains (e : JsError) :
  is_nft_conflict e = message_contains e (js "ProgrammableNonFungible").
Proof.
  unfold is_nft_conflict, message_contains.
  destruct (message e) as [m |]; [| done].
  destruct (js_includes m _) eqn:Hin.
  - rewrite (js_includes_truthy m (js "ProgrammableNonFungible")); done.
  - by rewrite andb_false_r.
Qed.

(** What the [catch] prints, in every world: nothing when the message
    cannot be read, the error line alone when the test throws, and the
    error line and one of the two texts otherwise. *)
Lemma trace_on_error (e : JsError) w :
  trace h (on_error e) w =
  match e with
  | Nullish _ => []
  | _ =>
      console_error (nl +:+ "❌ Error creating metadata:") [message_or_error e]
      :: match conflict_test e with
         | Ok true => Expected.nft_lines
         | Ok false => Expected.generic_lines
         | Err _ => []
         end
  end.
Proof.
  unfold trace, on_error.
  destruct e as [m | [[] |] | u]; cbn; [| by settle h .. | done].
  answer h as u. destruct (is_nft_conflict _); cbn; by settle h.
Qed.

Lemma outcome_on_error (e : JsError) w :
  outcome h (on_error e) w =
  match conflict_test e with
  | Ok _ => Normal tt
  | Err t => Thrown t
  end.
Proof.
  unfold outcome, on_error.
  destruct e as [m | [[] |] | u]; cbn; [| by settle h .. | done].
  answer h as u. destruct (is_nft_conflict _); cbn; by settle h.
Qed.

(** The handler makes no remote call. *)
Lemma on_error_remote (p : Op -> bool) (e : JsError) w :
  (forall text args, p (console_error text args) = false) ->
  (forall text, p (console_log text) = false) ->
  List.filter p (trace h (on_error e) w) = [].
Proof.
  intros Herror Hlog. rewrite trace_on_error.
  destruct e as [m | [[] |] | u]; cbn; rewrite ?Herror, ?Hlog; try done.
  destruct (is_nft_conflict _); cbn; by rewrite ?Herror, ?Hlog.
Qed.

(** Each remote call of the [try] block is made at most once. *)
Lemma body_calls_once cfg signer w :
  (count is_lookup (trace h (body cfg signer) w) <= 1)%nat /\
  (count is_upload (trace h (body cfg signer) w) <= 1)%nat /\
  (count is_submission (trace h (body cfg signer) w) <= 1)%nat.
Proof.
  unfold trace, body, publicKey. cbn.
  destruct (mint_placeholder cfg); cbn.
  { repeat answer h as ?. cbn. lia. }
  destruct (isPublicKey (MINT_ADDRESS cfg)); cbn; [| lia].
  answer h as [[[|]] | e].
  - destruct (UPLOAD_METADATA_JSON cfg); cbn.
    + answer h as [u | e]; [answer h as [sig | e] |]; cbn; lia.
    + destruct (uri_missing _); cbn;
        [repeat answer h as ? | answer h as [sig | e]]; cbn; lia.
  - repeat answer h as ?. cbn. lia.
  - answer h as u. destruct (UPLOAD_METADATA_JSON cfg); cbn.
    + answer h as [u' | e']; [answer h as [sig | e''] |]; cbn; lia.
    + destruct (uri_missing _); cbn;
        [repeat answer h as ? | answer h as [sig | e']]; cbn; lia.
Qed.

(** C7, as the code has it. Whatever the [try] block throws, from
    the transaction or from an earlier step, as long as its message is
    a string or is missing (every [Error] is such a value): the
    [catch] prints the error line, with the message when it is a
    non-empty string, and then the NFT-versus-fungible explanation when
    the message contains "ProgrammableNonFungible", and otherwise the
    generic troubleshooting list and nothing else.  The run ends
    normally, and in the whole run the lookup, the upload and the
    submission are each made at most once: nothing is retried. *)
Theorem catch_classifies cfg signer w m
    (Hthrown : outcome h (body cfg signer) w = Thrown (ErrorValue m)) :
  trace h (main cfg signer) w =
    trace h (body cfg signer) w ++
    Expected.error_line m
    :: (if message_contains (ErrorValue m) (js "ProgrammableNonFungible")
        then Expected.nft_lines
        else Expected.generic_lines) /\
  outcome h (main cfg signer) w = Normal tt /\
  (count is_lookup (trace h (main cfg signer) w) <= 1)%nat /\
  (count is_upload (trace h (main cfg signer) w) <= 1)%nat /\
  (count is_submission (trace h (main cfg signer) w) <= 1)%nat.
Proof.
  unfold main.
  rewrite (trace_try_catch_thrown h _ _ _ _ Hthrown),
    (outcome_try_catch_thrown h _ _ _ _ Hthrown), trace_on_error, outcome_on_error.
  cbn [conflict_test]. rewrite is_nft_conflict_contains.
  assert (console_error (nl +:+ "❌ Error creating metadata:")
            [message_or_error (ErrorValue m)] = Expected.error_line m) as ->.
  { unfold Expected.error_line, message_or_error. cbn. by destruct m as [[| c text] |]. }
  split; [by destruct (message_contains _ _) | split; [done |]].
  destruct (body_calls_once cfg signer w) as (Hl & Hu & Hs).
  unfold count in *. rewrite !List.filter_app, !length_app.
  destruct (message_contains _ _); cbn; lia.
Qed.

(** A failed submission is such an error. *)
Lemma failed_submission_is_thrown cfg signer w e :
  mint_placeholder cfg = false ->
  isPublicKey (MINT_ADDRESS cfg) = true ->
  UPLOAD_METADATA_JSON cfg = false ->
  uri_missing (uri (TOKEN_METADATA cfg)) = false ->
  (forall tx w', (h (sendAndConfirm tx) w').1 = Err e) ->
  (h (rpc_getAccount (MINT_ADDRESS cfg)) w).1 = Ok {| exists_ := true |} ->
  outcome h (body cfg signer) w = Thrown e.
Proof.
  intros Hmint Hkey Hup Huri Hfail Hexists.
  unfold outcome, body, publicKey. rewrite Hmint, Hkey, Hup. cbn.
  answer h as r. subst r. cbn. rewrite Huri. cbn.
  match goal with |- context [h (sendAndConfirm ?tx) ?w'] => specialize (Hfail tx w') end.
  answer h as r. by subst r.
Qed.
(** C4, as the code has it. With the upload switched off and a URI
    that is empty or shorter than ten code units, and a mint address
    that is a placeholder or parses as a public key, the run ends in
    [process.exit(1)] having uploaded and submitted nothing; the one
    remote call it makes first, unless the mint address is a
    placeholder, is the read-only lookup of the mint account. *)
Theorem missing_uri_exits cfg signer w
    (Hupload : UPLOAD_METADATA_JSON cfg = false)
    (Huri : uri (TOKEN_METADATA cfg) = [] \/
            js_length (uri (TOKEN_METADATA cfg)) < 10)
    (Hmint : mint_placeholder cfg = true \/ isPublicKey (MINT_ADDRESS cfg) = true) :
  outcome h (main cfg signer) w = Exited 1 /\
  List.filter mutates (trace h (main cfg signer) w) = [] /\
  List.filter remote (trace h (main cfg signer) w) =
    (if mint_placeholder cfg then [] else [rpc_getAccount (MINT_ADDRESS cfg)]).
Proof.
  assert (uri_missing (uri (TOKEN_METADATA cfg)) = true) as Hmissing.
  { unfold uri_missing. destruct Huri as [-> | Hshort]; [done |].
    apply orb_true_iff. right. by apply Z.ltb_lt. }
  unfold outcome, trace, main, body, publicKey. cbn.
  destruct (mint_placeholder cfg); cbn.
  { by repeat answer h as ?. }
  destruct Hmint as [? | ->]; [done |]. cbn.
  rewrite Hupload, Hmissing.
  answer h as [[[|]] | e]; by repeat answer h as ?.
Qed.
End Sdk.

Lemma missing_uri_exits_witness :
  outcome (scripted (Ok {| exists_ := true |}) (Ok (js "uri")) (Ok []))
    (main sample_isPublicKey sample_InvalidPublicKeyError
       (direct_uri_config (MINT_ADDRESS source_config) (js "http://x"))
       sample_signer) tt = Exited 1 /\
  List.filter mutates
    (trace (scripted (Ok {| exists_ := true |}) (Ok (js "uri")) (Ok []))
       (main sample_isPublicKey sample_InvalidPublicKeyError
          (direct_uri_config (MINT_ADDRESS source_config) (js "http://x"))
          sample_signer) tt) = [] /\
  List.filter remote
    (trace (scripted (Ok {| exists_ := true |}) (Ok (js "uri")) (Ok []))
       (main sample_isPublicKey sample_InvalidPublicKeyError
          (direct_uri_config (MINT_ADDRESS source_config) (js "http://x"))
          sample_signer) tt) =
    (if mint_placeholder (direct_uri_config (MINT_ADDRESS source_config) (js "http://x"))
     then []
     else [rpc_getAccount
             (MINT_ADDRESS (direct_uri_config (MINT_ADDRESS source_config) (js "http://x")))]).
Proof.
  apply (missing_uri_exits sample_isPublicKey sample_InvalidPublicKeyError
           (scripted (Ok {| exists_ := true |}) (Ok (js "uri")) (Ok []))
           (direct_uri_config (MINT_ADDRESS source_config) (js "http://x"))
           sample_signer tt).
  - reflexivity.
  - right. vm_compute. reflexivity.
  - right. vm_compute. reflexivity.
Defined.

(** C4, as stated, fails. With the upload switched off and an empty
    URI, the run on the source's mint address asks the node for the
    mint account before it exits; and on a mint address that does not
    parse, the run does not exit with code 1 at all: the error is
    caught and the run ends normally. *)
Lemma lookup_precedes_uri_check :
  UPLOAD_METADATA_JSON (direct_uri_config (MINT_ADDRESS source_config) []) = false /\
  uri (TOKEN_METADATA (direct_uri_config (MINT_ADDRESS source_config) [])) = [] /\
  List.filter remote
    (trace (scripted (Ok {| exists_ := true |}) (Ok (js "uri")) (Ok []))
       (main sample_isPublicKey sample_InvalidPublicKeyError
          (direct_uri_config (MINT_ADDRESS source_config) []) sample_signer) tt)
    = [rpc_getAccount (MINT_ADDRESS source_config)] /\
  outcome (scripted (Ok {| exists_ := true |}) (Ok (js "uri")) (Ok []))
    (main sample_isPublicKey sample_InvalidPublicKeyError
       (direct_uri_config (js "0000000000000000000000000000000000000000") [])
       sample_signer) tt
    = Normal tt.
Proof. by vm_compute. Qed.

Lemma catch_classifies_witness :
  trace (scripted (Ok {| exists_ := true |}) (Ok (js "https://arweave.net/abc"))
           (Err (error_of "custom program error: ProgrammableNonFungible")))
    (main sample_isPublicKey sample_InvalidPublicKeyError source_config sample_signer) tt
  = trace (scripted (Ok {| exists_ := true |}) (Ok (js "https://arweave.net/abc"))
             (Err (error_of "custom program error: ProgrammableNonFungible")))
      (body sample_isPublicKey sample_InvalidPublicKeyError source_config sample_signer) tt
    ++ Expected.error_line (Some (js "custom program error: ProgrammableNonFungible"))
    :: (if message_contains
             (ErrorValue (Some (js "custom program error: ProgrammableNonFungible")))
             (js "ProgrammableNonFungible")
        then Expected.nft_lines
        else Expected.generic_lines) /\
  outcome (scripted (Ok {| exists_ := true |}) (Ok (js "https://arweave.net/abc"))
             (Err (error_of "custom program error: ProgrammableNonFungible")))
    (main sample_isPublicKey sample_InvalidPublicKeyError source_config sample_signer) tt
  = Normal tt /\
  (count is_lookup
     (trace (scripted (Ok {| exists_ := true |}) (Ok (js "https://arweave.net/abc"))
               (Err (error_of "custom program error: ProgrammableNonFungible")))
        (main sample_isPublicKey sample_InvalidPublicKeyError source_config sample_signer)
        tt) <= 1)%nat /\
  (count is_upload
     (trace (scripted (Ok {| exists_ := true |}) (Ok (js "https://arweave.net/abc"))
               (Err (error_of "custom program error: ProgrammableNonFungible")))
        (main sample_isPublicKey sample_InvalidPublicKeyError source_config sample_signer)
        tt) <= 1)%nat /\
  (count is_submission
     (trace (scripted (Ok {| exists_ := true |}) (Ok (js "https://arweave.net/abc"))
               (Err (error_of "custom program error: ProgrammableNonFungible")))
        (main sample_isPublicKey sample_InvalidPublicKeyError source_config sample_signer)
        tt) <= 1)%nat.
Proof.
  apply (catch_classifies sample_isPublicKey sample_InvalidPublicKeyError
           (scripted (Ok {| exists_ := true |}) (Ok (js "https://arweave.net/abc"))
              (Err (error_of "custom program error: ProgrammableNonFungible")))
           source_config sample_signer tt
           (Some (js "custom program error: ProgrammableNonFungible"))).
  reflexivity.
Defined.

(** C7, as stated, fails.  An error that never reached the
    transaction gets the NFT explanation when its message carries the
    marker: a failed upload, after which nothing is submitted, and a
    mint address that does not parse, after which nothing is asked of
    the network at all.  And a transaction rejected with [null] gets
    neither text: the [catch] throws before it prints. *)
Lemma marker_outside_transaction :
  trace (scripted (Ok {| exists_ := true |})
           (Err (error_of "upload failed: ProgrammableNonFungible")) (Ok []))
    (main sample_isPublicKey sample_InvalidPublicKeyError source_config sample_signer) tt
  = [ rpc_getAccount (MINT_ADDRESS source_config);
      uploader_uploadJson {|
        json_name := name (TOKEN_METADATA source_config);
        json_symbol := symbol (TOKEN_METADATA source_config);
        json_description := description (RICH_METADATA source_config) |};
      Expected.error_line (Some (js "upload failed: ProgrammableNonFungible")) ]
    ++ Expected.nft_lines /\
  trace (scripted (Ok {| exists_ := true |}) (Ok (js "uri")) (Ok []))
    (main sample_isPublicKey sample_InvalidPublicKeyError
       (Expected.upload_config Expected.marker_address) sample_signer) tt
  = Expected.error_line
      (Some (js "The provided public key is invalid: " ++ Expected.marker_address))
    :: Expected.nft_lines /\
  trace (scripted (Ok {| exists_ := true |}) (Ok (js "uri")) (Err (Nullish false)))
    (main sample_isPublicKey sample_InvalidPublicKeyError source_config sample_signer) tt
  = [ rpc_getAccount (MINT_ADDRESS source_config);
      uploader_uploadJson {|
        json_name := name (TOKEN_METADATA source_config);
        json_symbol := symbol (TOKEN_METADATA source_config);
        json_description := description (RICH_METADATA source_config) |};
      sendAndConfirm
        (Expected.metadata_account source_config sample_signer (js "uri")) ] /\
  outcome (scripted (Ok {| exists_ := true |}) (Ok (js "uri")) (Err (Nullish false)))
    (main sample_isPublicKey sample_InvalidPublicKeyError source_config sample_signer) tt
  = Thrown (error_of "Cannot read properties of null (reading 'message')").
Proof. by vm_compute. Qed.

(** The two outputs of the handler, line by line. *)
Lemma said_nft_explanation :
  said nft_explanation =
  [ console_error (nl +:+ "⚠️  IMPORTANT: The mint address appears to be an NFT, not a fungible SPL token!") [];
    console_log (nl +:+ "This error occurs when:");
    console_log "  - The MINT_ADDRESS points to an NFT mint (not an SPL token)";
    console_log "  - The mint already has NFT metadata attached";
    console_log (nl +:+ "Solution:");
    console_log "  1. Make sure you're using the mint address from spl_init.ts (your SPL token)";
    console_log "  2. Do NOT use the NFT mint address from nft_mint.ts";
    console_log "  3. Verify the mint address in spl_init.ts output";
    console_log "  4. If you created a new token, use that mint address instead" ].
Proof. reflexivity. Qed.

Lemma said_troubleshooting :
  said troubleshooting =
  [ console_log (nl +:+ "Troubleshooting:");
    console_log "  1. Make sure your wallet has enough SOL (~0.01 SOL needed)";
    console_log "  2. Verify the MINT_ADDRESS is correct (from spl_init.ts output)";
    console_log "  3. Check that the token mint exists (run spl_init.ts first)";
    console_log "  4. Ensure you're the mint authority";
    console_log "  5. Check your internet connection" ].
Proof. reflexivity. Qed.

End MetadataFacts.

(** ** JSON text of the key *)

Module JsonFacts.
Import Json.

Lemma append_cons a (s t : string) : String a s +:+ t = String a (s +:+ t).
Proof. reflexivity. Qed.

Lemma append_assoc (s t u : string) : (s +:+ t) +:+ u = s +:+ (t +:+ u).
Proof.
  induction s as [| a s IH]; [done |].
  by rewrite !append_cons, IH.
Qed.

(** Reading the decimal text of a byte leaves that byte as the number
    being read. *)
Lemma items_byte (b : Byte.byte) (rest : string) (read : list N) :
  items (decimal (Strings.Byte.to_N b) +:+ rest) None read =
  items rest (Some (Strings.Byte.to_N b)) read.
Proof. destruct b; reflexivity. Qed.

Lemma items_bytes (b : Byte.byte) (bs : list Byte.byte) (read : list N) :
  items (String.concat "," (List.map decimal (Array_from (b :: bs))) +:+ "]") None read =
  Some (read ++ Array_from (b :: bs)).
Proof.
  revert b read. induction bs as [| b' bs IH]; intros b read.
  - cbn [Array_from List.map String.concat]. by rewrite items_byte.
  - change (String.concat "," (List.map decimal (Array_from (b :: b' :: bs))))
      with (decimal (Strings.Byte.to_N b) +:+
            ("," +:+ String.concat "," (List.map decimal (Array_from (b' :: bs))))).
    rewrite !append_assoc, items_byte.
    change (items ("," +:+ ?s) (Some ?n) ?r) with (items s None (r ++ [n])).
    rewrite IH. by rewrite <- app_assoc.
Qed.

(** What [JSON.stringify] writes for the bytes of a key,
    [JSON.parse] reads back as the same numbers. *)
Lemma parse_stringify (bs : list Byte.byte) :
  JSON_parse (JSON_stringify (Array_from bs)) = Some (Array_from bs).
Proof.
  destruct bs as [| b bs]; [done |].
  unfold JSON_stringify. rewrite append_cons. cbn [JSON_parse].
  change ("" +:+ ?s) with s. by rewrite items_bytes.
Qed.

Lemma Uint8Array_from (bs : list Byte.byte) : Uint8Array (Array_from bs) = Some bs.
Proof.
  unfold Uint8Array, Array_from. apply mapM_Some.
  induction bs as [| b bs IH]; constructor; [apply Strings.Byte.of_to_N | done].
Qed.

(** The wallet file determines the key. *)
Lemma wallet_roundtrip (bs : list Byte.byte) :
  JSON_parse (JSON_stringify (Array_from bs)) ≫= Uint8Array = Some bs.
Proof. rewrite parse_stringify. cbn. apply Uint8Array_from. Qed.

Lemma stringify_inj (bs bs' : list Byte.byte) :
  JSON_stringify (Array_from bs) = JSON_stringify (Array_from bs') -> bs = bs'.
Proof.
  intros H. pose proof (wallet_roundtrip bs) as Hbs.
  rewrite H, wallet_roundtrip in Hbs. congruence.
Qed.

End JsonFacts.

(** ** The file system *)

Module FsFacts.
Import Fs.

Lemma node_at_snoc (fs : FS) (p : Path) (segment : string) :
  node_at fs (p ++ [segment]) = fs !! (p ++ [segment]).
Proof. by destruct p. Qed.

Lemma parent_snoc (p : Path) (segment : string) : parent (p ++ [segment]) = p.
Proof. apply removelast_last. Qed.

Lemma directory_chain_prefix (fs : FS) (p q : Path) :
  directory_chain fs p -> q <> [] -> q `prefix_of` p -> fs !! q = Some Directory.
Proof.
  intros Hchain Hq [k ->].
  specialize (Hchain (length q)). rewrite take_app_length in Hchain.
  by destruct q.
Qed.

Lemma directory_chain_self (fs : FS) (p : Path) :
  directory_chain fs p -> node_at fs p = Some Directory.
Proof. intros Hchain. specialize (Hchain (length p)). by rewrite firstn_all in Hchain. Qed.

(** Below directories that exist, [mkdir] adds the one that is
    missing and nothing else. *)
Lemma mkdir_recursive_adds (fs : FS) (above mid : Path) (segment : string) :
  (forall q, q <> [] -> q `prefix_of` mid -> fs !! (above ++ q) = Some Directory) ->
  fs !! (above ++ mid ++ [segment]) = None ->
  mkdir_recursive fs above (mid ++ [segment]) =
  Ok (<[above ++ mid ++ [segment] := Directory]> fs).
Proof.
  revert above. induction mid as [| s mid IH]; intros above Hdirs Hnew; cbn in *.
  - by rewrite Hnew.
  - rewrite (Hdirs [s]); [| done | by apply prefix_cons, prefix_nil].
    rewrite IH.
    + by rewrite <- app_assoc.
    + intros q Hq Hpre. rewrite <- app_assoc. cbn.
      apply Hdirs; [done | by apply prefix_cons].
    + by rewrite <- app_assoc.
Qed.

Lemma fs_mkdirSync_adds (fs : FS) (dir : Path) (segment : string) :
  directory_chain fs dir ->
  fs !! (dir ++ [segment]) = None ->
  fs_mkdirSync fs (dir ++ [segment]) = Ok (<[dir ++ [segment] := Directory]> fs).
Proof.
  intros Hchain Hnew. unfold fs_mkdirSync.
  apply (mkdir_recursive_adds fs [] dir segment); [| done].
  intros q Hq Hpre. by apply (directory_chain_prefix fs dir).
Qed.

Lemma fs_writeFileSync_writes (fs : FS) (dir : Path) (file data : string) :
  node_at fs dir = Some Directory ->
  fs !! (dir ++ [file]) <> Some Directory ->
  fs_writeFileSync fs (dir ++ [file]) data = Ok (<[dir ++ [file] := File data]> fs).
Proof.
  intros Hdir Hfile. unfold fs_writeFileSync.
  rewrite parent_snoc, Hdir, node_at_snoc.
  by destruct (fs !! (dir ++ [file])) as [[] |].
Qed.

End FsFacts.

(** ** keygen.ts *)

Module KeygenFacts.
Import Fs Json Keygen FsFacts JsonFacts.

Section Run.
Variable __dirname : Path.
Variable toBase58 : Web3.PublicKey -> string.
Variable generated : Web3.Keypair.

Local Abbreviation dir := (walletDir __dirname).
Local Abbreviation file := (walletFile __dirname).
Local Abbreviation content := (JSON_stringify (Array_from (Web3.secretKey generated))).
Local Abbreviation keygen := (main __dirname toBase58).

Lemma dir_ne_file : dir <> file.
Proof.
  unfold walletFile, walletDir, path_join. intros H.
  apply (f_equal length) in H. rewrite !length_app in H. cbn in H. lia.
Qed.

Lemma existsSync_dir (fs : FS) :
  fs_existsSync fs dir = bool_decide (is_Some (fs !! dir)).
Proof. unfold fs_existsSync, walletDir, path_join. by rewrite node_at_snoc. Qed.

(** The whole run, on a file system where the wallet path is a
    directory, or is free below the script's directory, and the
    wallet file is not a directory. *)
Lemma keygen_run (fs : FS) :
  fs !! dir = None /\ directory_chain fs __dirname \/ fs !! dir = Some Directory ->
  fs !! file <> Some Directory ->
  run (world generated) keygen fs [] =
  ( Keypair_generate
    :: fs_calls __dirname generated (fs_existsSync fs dir)
    ++ List.map console_log (announcement __dirname toBase58 generated),
    <[file := File content]>
      (if fs_existsSync fs dir then fs else <[dir := Directory]> fs),
    Normal tt ).
Proof.
  intros Hdir Hfile.
  unfold main, fs_calls, announcement. cbn -[fs_existsSync fs_mkdirSync fs_writeFileSync].
  rewrite existsSync_dir.
  destruct Hdir as [[Hdir Hchain] | Hdir]; rewrite Hdir;
    cbn -[fs_mkdirSync fs_writeFileSync].
  - unfold walletDir at 1, path_join at 1.
    rewrite fs_mkdirSync_adds by done.
    cbn -[fs_writeFileSync]. fold (path_join __dirname "wallet"). fold dir.
    unfold walletFile at 1, path_join at 1.
    rewrite fs_writeFileSync_writes; [done | |].
    + unfold walletDir, path_join. by rewrite node_at_snoc, lookup_insert_eq.
    + fold (path_join dir "dev-wallet.json"). fold file.
      rewrite lookup_insert_ne by apply dir_ne_file. done.
  - unfold walletFile at 1, path_join at 1.
    rewrite fs_writeFileSync_writes; [done | | done].
    unfold walletDir, path_join. by rewrite node_at_snoc.
Qed.

(** X18. The calls of a run on any file system at all: the key is drawn
    first, the one existence check is on the wallet directory, the
    directory creation is attempted exactly when that check fails,
    and a write, when the run gets to it, is the key to the wallet
    file. *)
Lemma keygen_calls (fs : FS) :
  head (trace (world generated) keygen fs) = Some Keypair_generate /\
  probed (trace (world generated) keygen fs) = [dir] /\
  made (trace (world generated) keygen fs) =
    (if fs_existsSync fs dir then [] else [dir]) /\
  (written (trace (world generated) keygen fs) = [] \/
   written (trace (world generated) keygen fs) = [(file, content)]).
Proof.
  unfold trace, main. cbn -[fs_existsSync fs_mkdirSync fs_writeFileSync].
  destruct (fs_existsSync fs dir); cbn -[fs_mkdirSync fs_writeFileSync].
  - destruct (fs_writeFileSync fs file content); cbn; auto.
  - destruct (fs_mkdirSync fs dir) as [fs' | e]; cbn -[fs_writeFileSync]; [| auto].
    destruct (fs_writeFileSync fs' file content); cbn; auto.
Qed.

(** C8, as the code has it. A run draws a keypair from the
    generator and, on a file system where the script's directory
    exists, the wallet path is free or a directory and the wallet file
    is not a directory, ends
    normally with the JSON array of the bytes of the secret key in
    [wallet/dev-wallet.json] under the script's directory.  The
    wallet directory is created exactly when nothing exists at its
    path; the text written reads back as the key. *)
Theorem keygen_writes_key (fs : FS)
    (Hchain : directory_chain fs __dirname)
    (Hdir : fs !! dir = None \/ fs !! dir = Some Directory)
    (Hfile : fs !! file <> Some Directory) :
  head (trace (world generated) keygen fs) = Some Keypair_generate /\
  outcome (world generated) keygen fs = Normal tt /\
  file = __dirname ++ ["wallet"; "dev-wallet.json"]%string /\
  written (trace (world generated) keygen fs) = [(file, content)] /\
  made (trace (world generated) keygen fs) =
    (if bool_decide (is_Some (fs !! dir)) then [] else [dir]) /\
  final (world generated) keygen fs !! dir = Some Directory /\
  final (world generated) keygen fs !! file = Some (File content) /\
  JSON_parse content ≫= Uint8Array = Some (Web3.secretKey generated).
Proof.
  unfold trace, outcome, final. rewrite keygen_run; [| tauto | done].
  rewrite existsSync_dir. cbn [fst snd head].
  split; [done |]. split; [done |].
  split; [unfold walletFile, walletDir, path_join; by rewrite <- app_assoc |].
  unfold written, made, fs_calls.
  split; [| split; [| split; [| split]]].
  - by destruct (bool_decide _).
  - by destruct (bool_decide _).
  - rewrite lookup_insert_ne by (apply not_eq_sym, dir_ne_file).
    destruct Hdir as [Hdir | Hdir]; rewrite Hdir; cbn; [| done].
    by rewrite lookup_insert_eq.
  - by rewrite lookup_insert_eq.
  - apply wallet_roundtrip.
Qed.

(** C10. The only existence check of a run is the one on the
    wallet directory.  When that directory and a wallet file from an
    earlier run are there, the run writes over the file: it ends
    normally, the file holds the new key and nothing of the old
    content, nothing else changes, and it prints what every run
    prints. *)
Theorem keygen_overwrites (fs : FS) (old : string)
    (Hdir : fs !! dir = Some Directory)
    (Hold : fs !! file = Some (File old)) :
  probed (trace (world generated) keygen fs) = [dir] /\
  made (trace (world generated) keygen fs) = [] /\
  written (trace (world generated) keygen fs) = [(file, content)] /\
  outcome (world generated) keygen fs = Normal tt /\
  final (world generated) keygen fs = <[file := File content]> fs /\
  final (world generated) keygen fs !! file = Some (File content) /\
  printed (trace (world generated) keygen fs) =
    announcement __dirname toBase58 generated.
Proof.
  unfold trace, outcome, final. rewrite keygen_run; [| tauto | by rewrite Hold].
  rewrite existsSync_dir, Hdir. cbn [fst snd].
  unfold probed, made, written, printed, fs_calls. cbn.
  rewrite lookup_insert_eq. done.
Qed.
End Run.

Lemma checkout_chain : directory_chain checkout ["cluster1"%string].
Proof. intros [| [| n]]; reflexivity. Defined.

Lemma keygen_writes_key_witness :
  head (trace (world first_key) (main ["cluster1"%string] sample_toBase58) checkout)
    = Some Keypair_generate /\
  outcome (world first_key) (main ["cluster1"%string] sample_toBase58) checkout
    = Normal tt /\
  walletFile ["cluster1"%string] = ["cluster1"; "wallet"; "dev-wallet.json"]%string /\
  written (trace (world first_key) (main ["cluster1"%string] sample_toBase58) checkout)
    = [(walletFile ["cluster1"%string],
        JSON_stringify (Array_from (Web3.secretKey first_key)))] /\
  made (trace (world first_key) (main ["cluster1"%string] sample_toBase58) checkout)
    = (if bool_decide (is_Some (checkout !! walletDir ["cluster1"%string]))
       then [] else [walletDir ["cluster1"%string]]) /\
  final (world first_key) (main ["cluster1"%string] sample_toBase58) checkout
    !! walletDir ["cluster1"%string] = Some Directory /\
  final (world first_key) (main ["cluster1"%string] sample_toBase58) checkout
    !! walletFile ["cluster1"%string]
    = Some (File (JSON_stringify (Array_from (Web3.secretKey first_key)))) /\
  JSON_parse (JSON_stringify (Array_from (Web3.secretKey first_key))) ≫= Uint8Array
    = Some (Web3.secretKey first_key).
Proof.
  apply (keygen_writes_key ["cluster1"%string] sample_toBase58 first_key checkout).
  - exact checkout_chain.
  - left. reflexivity.
  - vm_compute. discriminate.
Defined.

Lemma keygen_overwrites_witness :
  probed (trace (world second_key) (main ["cluster1"%string] sample_toBase58)
            after_first_run) = [walletDir ["cluster1"%string]] /\
  made (trace (world second_key) (main ["cluster1"%string] sample_toBase58)
          after_first_run) = [] /\
  written (trace (world second_key) (main ["cluster1"%string] sample_toBase58)
             after_first_run)
    = [(walletFile ["cluster1"%string],
        JSON_stringify (Array_from (Web3.secretKey second_key)))] /\
  outcome (world second_key) (main ["cluster1"%string] sample_toBase58) after_first_run
    = Normal tt /\
  final (world second_key) (main ["cluster1"%string] sample_toBase58) after_first_run
    = <[walletFile ["cluster1"%string] :=
          File (JSON_stringify (Array_from (Web3.secretKey second_key)))]>
        after_first_run /\
  final (world second_key) (main ["cluster1"%string] sample_toBase58) after_first_run
    !! walletFile ["cluster1"%string]
    = Some (File (JSON_stringify (Array_from (Web3.secretKey second_key)))) /\
  printed (trace (world second_key) (main ["cluster1"%string] sample_toBase58)
             after_first_run)
    = announcement ["cluster1"%string] sample_toBase58 second_key.
Proof.
  apply (keygen_overwrites ["cluster1"%string] sample_toBase58 second_key
           after_first_run "[7,42,255]").
  - reflexivity.
  - reflexivity.
Defined.

(** C8, as stated, fails.  With a regular file at the path of the
    wallet directory there is no directory there, yet the run creates
    none, its write fails with ENOTDIR and no wallet file exists
    afterwards.  With a directory at the path of the wallet file the
    write fails with EISDIR and the directory stays where it was. *)
Lemma wallet_not_written :
  Expected.blocked_checkout !! walletDir ["cluster1"%string]
    = Some (File "not a directory") /\
  made (trace (world first_key) (main ["cluster1"%string] sample_toBase58)
          Expected.blocked_checkout) = [] /\
  outcome (world first_key) (main ["cluster1"%string] sample_toBase58)
    Expected.blocked_checkout = Thrown (error_of "ENOTDIR") /\
  final (world first_key) (main ["cluster1"%string] sample_toBase58)
    Expected.blocked_checkout !! walletFile ["cluster1"%string] = None /\
  Expected.directory_at_file !! walletDir ["cluster1"%string] = Some Directory /\
  outcome (world first_key) (main ["cluster1"%string] sample_toBase58)
    Expected.directory_at_file = Thrown (error_of "EISDIR") /\
  final (world first_key) (main ["cluster1"%string] sample_toBase58)
    Expected.directory_at_file !! walletFile ["cluster1"%string] = Some Directory.
Proof. by vm_compute. Qed.

(** The path of the wallet file, for the script in [cluster1]. *)
Lemma wallet_path :
  path_text (walletFile ["cluster1"%string]) = "cluster1/wallet/dev-wallet.json"%string.
Proof. reflexivity. Qed.

(** X19. Two runs in a row: the second finds the directory, creates
    nothing, and leaves the second key in the file; when the keys
    differ, so do the files. *)
Lemma second_run_replaces_key (__dirname : Path) (toBase58 : Web3.PublicKey -> string)
    (k1 k2 : Web3.Keypair) (fs : FS) :
  directory_chain fs __dirname ->
  fs !! walletDir __dirname = None \/ fs !! walletDir __dirname = Some Directory ->
  fs !! walletFile __dirname <> Some Directory ->
  let fs1 := final (world k1) (main __dirname toBase58) fs in
  let fs2 := final (world k2) (main __dirname toBase58) fs1 in
  fs1 !! walletFile __dirname
    = Some (File (JSON_stringify (Array_from (Web3.secretKey k1)))) /\
  made (trace (world k2) (main __dirname toBase58) fs1) = [] /\
  fs2 !! walletFile __dirname
    = Some (File (JSON_stringify (Array_from (Web3.secretKey k2)))) /\
  (Web3.secretKey k1 <> Web3.secretKey k2 ->
   fs2 !! walletFile __dirname <> fs1 !! walletFile __dirname).
Proof.
  intros Hchain Hdir Hfile fs1 fs2.
  assert (fs1 !! walletFile __dirname
          = Some (File (JSON_stringify (Array_from (Web3.secretKey k1))))) as H1.
  { subst fs1. unfold final. rewrite keygen_run; [| tauto | done].
    cbn [fst snd]. by rewrite lookup_insert_eq. }
  assert (fs1 !! walletDir __dirname = Some Directory) as H1d.
  { subst fs1. unfold final. rewrite keygen_run; [| tauto | done].
    cbn [fst snd]. rewrite lookup_insert_ne by (apply not_eq_sym, dir_ne_file).
    rewrite existsSync_dir.
    destruct Hdir as [Hd | Hd]; rewrite Hd; cbn; [by rewrite lookup_insert_eq | done]. }
  assert (run (world k2) (main __dirname toBase58) fs1 [] = _) as Hrun
    by (apply keygen_run; [tauto | by rewrite H1]).
  rewrite existsSync_dir, H1d in Hrun.
  split; [done |]. subst fs2. unfold trace, final. rewrite Hrun. cbn [fst snd].
  rewrite lookup_insert_eq.
  split; [done | split; [done |]].
  intros Hne. rewrite H1. intros Heq. apply Hne. symmetry.
  apply stringify_inj. congruence.
Qed.

End KeygenFacts.


(** * Further properties *)

(** ** spl_transfer.ts: the shape of the fee *)

Module FeeShape.
Import Web3 SplTransfer.

Lemma calculatedFee_hundredth (A : Z) : 0 <= A -> calculatedFee A = A / 100.
Proof.
  intros HA. unfold calculatedFee, bigint_div, BigInt, TRANSFER_FEE_BASIS_POINTS.
  rewrite Z.quot_div_nonneg by lia.
  change 10000 with (100 * 100). apply Z.div_mul_cancel_r; lia.
Qed.

Lemma fee_as_min (A : Z) : fee A = Z.min (calculatedFee A) MAX_FEE.
Proof. unfold fee. destruct (Z.gtb_spec (calculatedFee A) MAX_FEE); lia. Qed.

(** X1. Below one hundred tokens the fee is a hundredth of the amount,
    rounded down; from one hundred tokens on it is the cap. *)
Theorem fee_piecewise (A : Z) (HA : 0 <= A) :
  fee A = if A <? 100000000000 then A / 100 else 1000000000.
Proof.
  rewrite fee_as_min, calculatedFee_hundredth by done.
  unfold MAX_FEE, BigInt.
  destruct (Z.ltb_spec A 100000000000); Z.div_mod_to_equations; lia.
Qed.

Lemma fee_piecewise_witness :
  0 <= 12345 /\
  fee 12345 = (if 12345 <? 100000000000 then 12345 / 100 else 1000000000).
Proof. split; [lia | apply fee_piecewise; lia]. Defined.

(** X2. A larger amount never has a smaller fee. *)
Theorem fee_monotone (A B : Z) (HAB : A <= B) : fee A <= fee B.
Proof.
  rewrite !fee_as_min.
  assert (calculatedFee A <= calculatedFee B).
  { unfold calculatedFee, bigint_div, BigInt, TRANSFER_FEE_BASIS_POINTS.
    apply Z.quot_le_mono; lia. }
  lia.
Qed.

Lemma fee_monotone_witness : 150 <= 99999 /\ fee 150 <= fee 99999.
Proof. split; [lia | apply fee_monotone; lia]. Defined.

(** X3. For a whole number of tokens the division leaves no remainder: the
    fee before the cap is exactly ten million base units per token. *)
Theorem fee_whole_tokens (tokens : Z) :
  Z.rem (transferAmount tokens * TRANSFER_FEE_BASIS_POINTS) 10000 = 0 /\
  calculatedFee (transferAmount tokens) = tokens * 10000000 /\
  fee (transferAmount tokens) = Z.min (tokens * 10000000) 1000000000.
Proof.
  assert (transferAmount tokens * TRANSFER_FEE_BASIS_POINTS = tokens * 10000000 * 10000)
    as Hexact.
  { unfold transferAmount, BigInt, TRANSFER_FEE_BASIS_POINTS, DECIMALS. lia. }
  assert (calculatedFee (transferAmount tokens) = tokens * 10000000) as Hfee.
  { unfold calculatedFee, bigint_div, BigInt. fold (BigInt TRANSFER_FEE_BASIS_POINTS).
    unfold BigInt. rewrite Hexact. apply Z.quot_mul. lia. }
  split; [rewrite Hexact; apply Z.rem_mul; lia |].
  split; [done |]. by rewrite fee_as_min, Hfee.
Qed.

(** X4. The fee is zero exactly for amounts under one hundred base units. *)
Theorem fee_zero_iff (A : Z) (HA : 0 <= A) : fee A = 0 <-> A < 100.
Proof.
  rewrite fee_as_min, calculatedFee_hundredth by done.
  unfold MAX_FEE, BigInt. Z.div_mod_to_equations. lia.
Qed.

Lemma fee_zero_iff_witness : 0 <= 99 /\ (fee 99 = 0 <-> 99 < 100).
Proof. split; [lia | apply fee_zero_iff; lia]. Defined.

End FeeShape.

(** ** The web3 scripts: what they call, in which order *)

Module Web3Runs.
Import Web3.

(** X5. spl_transfer.ts.  The calls of a run, by what the node answers.  The
    recipient's account is looked up first; it is created, in its own
    transaction, only when the node reports it absent, and the transfer
    waits for that creation to be confirmed.  There is one transfer at
    most, for one hundred tokens with the capped fee declared, from the
    wallet's account to the recipient's; the recipient's account is read
    back only after the transfer went through. *)
Theorem transfer_calls_by_account_state W (h : Handler Resp W) w keypair :
  let drawn := h Keypair_generate w in
  let to := publicKey drawn.1 in
  let lookup := h (getAccountInfo (Expected.recipient_account to)) drawn.2 in
  let creation := Expected.recipient_creation keypair to in
  let transfer := Expected.transfer keypair to in
  let from_transfer := fun w' =>
    transfer ::
    match (h transfer w').1 with
    | Ok _ => [getAccount (Expected.recipient_account to) TOKEN_2022_PROGRAM_ID]
    | Err _ => []
    end in
  trace h (SplTransfer.main keypair) w =
    Keypair_generate :: getAccountInfo (Expected.recipient_account to) ::
    match lookup.1 with
    | Ok (Some _) => from_transfer lookup.2
    | Ok None =>
        creation ::
        match (h creation lookup.2).1 with
        | Ok _ => from_transfer (h creation lookup.2).2
        | Err _ => []
        end
    | Err _ => []
    end.
Proof.
  unfold trace, SplTransfer.main, Expected.recipient_creation, Expected.transfer,
    Expected.recipient_account, Expected.sender_account,
    getAssociatedTokenAddressSync. cbn.
  change (SplTransfer.fee (SplTransfer.transferAmount SplTransfer.TRANSFER_AMOUNT))
    with 1000000000.
  change (SplTransfer.transferAmount SplTransfer.TRANSFER_AMOUNT) with 100000000000.
  change SplTransfer.DECIMALS with 9.
  answer h as drawn. answer h as [[info |] | e].
  - answer h as [sig | e]; [by answer h as [account | e] | done].
  - answer h as [sig | e]; [| done].
    answer h as [sig' | e]; [by answer h as [account | e] | done].
  - done.
Qed.

(** The comparison with half a SOL, on lamports. *)
Lemma half_sol (balance : Z) :
  number_ge (number_of balance) (0.5 * number_of LAMPORTS_PER_SOL) =
  (500000000 <=? balance).
Proof.
  unfold number_ge, number_of, Qle_bool, LAMPORTS_PER_SOL. cbn.
  destruct (Z.leb_spec 500000000 balance);
    [apply Z.leb_le | apply Z.leb_gt]; lia.
Qed.

(** X6. airdrop.ts.  The lamport threshold.  Whatever balance the node
    reports, the faucet is asked exactly when the balance is under
    500,000,000 lamports, once, for 2,000,000,000 lamports to the
    wallet's own key. *)
Theorem airdrop_threshold W (h : Handler Resp W) w keypair balance
    (Hanswer : (h (getBalance (publicKey keypair)) w).1 = Ok balance) :
  List.filter mutates (trace h (Airdrop.main keypair) w) =
  if balance <? 500000000
  then [requestAirdrop (publicKey keypair) 2000000000]
  else [].
Proof.
  unfold trace, Airdrop.main. cbn.
  answer h as r. subst r. cbn. rewrite half_sol.
  destruct (Z.leb_spec 500000000 balance), (Z.ltb_spec balance 500000000);
    try lia; cbn; [done |].
  settle h; done.
Qed.

Lemma airdrop_threshold_witness :
  List.filter mutates
    (trace Devnet.node (Airdrop.main Devnet.wallet) (Devnet.fresh 499999999 [])) =
  (if 499999999 <? 500000000
   then [requestAirdrop (publicKey Devnet.wallet) 2000000000]
   else []).
Proof.
  apply (airdrop_threshold Devnet.Ledger Devnet.node (Devnet.fresh 499999999 [])
           Devnet.wallet 499999999).
  reflexivity.
Defined.

(** X7. airdrop.ts.  After the request: the run waits for the signature the
    faucet returned, with the blockhash it fetched after the request,
    and reads the balance again only once the airdrop is confirmed.  A
    failure at any stage ends the calls there. *)
Theorem airdrop_calls W (h : Handler Resp W) w keypair balance
    (Hanswer : (h (getBalance (publicKey keypair)) w).1 = Ok balance)
    (Hlow : balance < 500000000) :
  let request := requestAirdrop (publicKey keypair) (2 * LAMPORTS_PER_SOL) in
  let w1 := (h (getBalance (publicKey keypair)) w).2 in
  let w2 := (h request w1).2 in
  let w3 := (h getLatestBlockhash w2).2 in
  trace h (Airdrop.main keypair) w =
    getBalance (publicKey keypair) :: request ::
    match (h request w1).1 with
    | Ok txhash =>
        getLatestBlockhash ::
        match (h getLatestBlockhash w2).1 with
        | Ok latestBlockhash =>
            confirmTransaction txhash latestBlockhash ::
            match (h (confirmTransaction txhash latestBlockhash) w3).1 with
            | Ok _ => [getBalance (publicKey keypair)]
            | Err _ => []
            end
        | Err _ => []
        end
    | Err _ => []
    end.
Proof.
  unfold trace, Airdrop.main. cbn.
  answer h as r. subst r. cbn. rewrite half_sol.
  destruct (Z.leb_spec 500000000 balance); [lia |]. cbn.
  answer h as [txhash | e]; [| done].
  answer h as [latest | e]; [| done].
  answer h as [[] | e]; [| done].
  by answer h as [b | e].
Qed.

Lemma airdrop_calls_witness :
  trace Devnet.node (Airdrop.main Devnet.wallet) (Devnet.fresh 0 []) =
  [ getBalance (publicKey Devnet.wallet);
    requestAirdrop (publicKey Devnet.wallet) 2000000000;
    getLatestBlockhash;
    confirmTransaction "airdrop" {| blockhash := "blockhash"; lastValidBlockHeight := 150 |};
    getBalance (publicKey Devnet.wallet) ].
Proof.
  apply (airdrop_calls Devnet.Ledger Devnet.node (Devnet.fresh 0 []) Devnet.wallet 0);
    [reflexivity | lia].
Defined.

(** X8. spl_init.ts.  The mint key is drawn before anything is asked of the
    node; the rent is asked for exactly the size that is then allocated,
    and what the node answers is what the new account is funded with;
    the wallet and the new mint key both sign; nothing is submitted when
    the rent query fails. *)
Theorem init_calls W (h : Handler Resp W) w getMintLen keypair :
  let drawn := h Keypair_generate w in
  let mintKeypair := drawn.1 in
  let mintLen := getMintLen [SplInit.TransferFeeConfig] in
  trace h (SplInit.main getMintLen keypair) w =
    Keypair_generate :: getMinimumBalanceForRentExemption mintLen ::
    match (h (getMinimumBalanceForRentExemption mintLen) drawn.2).1 with
    | Ok mintLamports =>
        [ sendAndConfirmTransaction
            [ SystemProgram_createAccount
                (publicKey keypair) (publicKey mintKeypair) mintLen mintLamports
                TOKEN_2022_PROGRAM_ID;
              createInitializeTransferFeeConfigInstruction
                (publicKey mintKeypair) (publicKey keypair) (publicKey keypair)
                100 1000000000 TOKEN_2022_PROGRAM_ID;
              createInitializeMintInstruction
                (publicKey mintKeypair) 9 (publicKey keypair) None
                TOKEN_2022_PROGRAM_ID ]
            [keypair; mintKeypair] ]
    | Err _ => []
    end.
Proof.
  unfold trace, SplInit.main. cbn.
  answer h as mintKeypair. answer h as [mintLamports | e]; [| done].
  by answer h as [signature | e].
Qed.

(** X9. airdrop.ts, spl_init.ts, spl_mint.ts, spl_transfer.ts.  Whatever
    the node answers and wherever it fails, the run ends normally:
    every rejection is caught by the script's one [catch], which only
    prints. *)
Theorem web3_scripts_end_normally W (h : Handler Resp W) w getMintLen keypair :
  outcome h (Airdrop.main keypair) w = Normal tt /\
  outcome h (SplInit.main getMintLen keypair) w = Normal tt /\
  outcome h (SplMint.main keypair) w = Normal tt /\
  outcome h (SplTransfer.main keypair) w = Normal tt.
Proof.
  unfold outcome, Airdrop.main, SplInit.main, SplMint.main, SplTransfer.main.
  repeat split; cbn.
  - answer h as [balance | e]; [| done].
    destruct (number_ge _ _); cbn; [done |]. settle h; done.
  - settle h; done.
  - settle h; done.
  - settle h; done.
Qed.

End Web3Runs.

(** ** spl_metadata.ts: the paths through the script *)

Module MetadataRuns.
Import SplMetadata.

Section Sdk.
Variable isPublicKey : JsString -> bool.
Variable InvalidPublicKeyError : JsString -> JsString.
Context {W : Type} (h : Handler Resp W).

Local Abbreviation body := (body isPublicKey InvalidPublicKeyError).
Local Abbreviation main := (main isPublicKey InvalidPublicKeyError).

(** The placeholder check, in words: the address contains "<PASTE" or
    has fewer than 32 code units. *)
Lemma mint_placeholder_spec cfg :
  mint_placeholder cfg = true <->
  (exists pre post, MINT_ADDRESS cfg = pre ++ js "<PASTE" ++ post) \/
  js_length (MINT_ADDRESS cfg) < 32.
Proof.
  unfold mint_placeholder. by rewrite orb_true_iff, js_includes_spec, Z.ltb_lt.
Qed.

(** X10. A mint address that still contains "<PASTE", or is shorter than 32
    code units, ends the run with exit code 1 after two lines of
    explanation, before the address is parsed and before anything is
    asked of the network, whether or not the upload is switched on. *)
Theorem placeholder_mint_exits cfg signer w
    (Hmint : (exists pre post, MINT_ADDRESS cfg = pre ++ js "<PASTE" ++ post) \/
             js_length (MINT_ADDRESS cfg) < 32) :
  trace h (main cfg signer) w =
    [ console_error
        (nl +:+ "❌ ERROR: Please update MINT_ADDRESS with your token's mint address") [];
      console_log "   Get this from spl_init.ts output." ] /\
  outcome h (main cfg signer) w = Exited 1.
Proof.
  apply mint_placeholder_spec in Hmint.
  unfold trace, outcome, SplMetadata.main, SplMetadata.body. rewrite Hmint. cbn.
  by settle h.
Qed.

(** X11. When the node reports that the mint account does not exist, the
    run ends with exit code 1; the lookup is its only remote call:
    nothing is uploaded and nothing submitted. *)
Theorem missing_mint_account_exits cfg signer w
    (Hmint : mint_placeholder cfg = false)
    (Hkey : isPublicKey (MINT_ADDRESS cfg) = true)
    (Hanswer : (h (rpc_getAccount (MINT_ADDRESS cfg)) w).1 = Ok {| exists_ := false |}) :
  Expected.metadata_calls (trace h (main cfg signer) w) =
    [rpc_getAccount (MINT_ADDRESS cfg)] /\
  outcome h (main cfg signer) w = Exited 1.
Proof.
  unfold Expected.metadata_calls, trace, outcome, SplMetadata.main, SplMetadata.body,
    publicKey.
  rewrite Hmint, Hkey. cbn.
  answer h as r. subst r. cbn. by settle h.
Qed.

(** X12. A mint address that passes the placeholder check but is not a
    public key makes no remote call at all: the SDK's error is caught,
    printed, and the run ends normally. *)
Theorem unparsable_mint_no_calls cfg signer w
    (Hmint : mint_placeholder cfg = false)
    (Hkey : isPublicKey (MINT_ADDRESS cfg) = false) :
  Expected.metadata_calls (trace h (main cfg signer) w) = [] /\
  head (trace h (main cfg signer) w) =
    Some (console_error (nl +:+ "❌ Error creating metadata:")
            [message_or_error
               (ErrorValue (Some (InvalidPublicKeyError (MINT_ADDRESS cfg))))]) /\
  outcome h (main cfg signer) w = Normal tt.
Proof.
  unfold Expected.metadata_calls, trace, outcome, SplMetadata.main, SplMetadata.body,
    publicKey, on_error.
  rewrite Hmint, Hkey. cbn.
  answer h as u. destruct (js_truthy _ && js_includes _ _); cbn; by settle h.
Qed.

(** X13. With the upload switched on, the URI stored on chain is the one
    the uploader returned, for a document of name, symbol and
    description: the URI in [TOKEN_METADATA] is not used.  The lookup
    comes first and the run goes on when it fails; the account asked
    for names the wallet as both authorities, payer and only creator,
    with no royalty. *)
Theorem uploaded_uri_is_used cfg signer w uploaded
    (Hmint : mint_placeholder cfg = false)
    (Hkey : isPublicKey (MINT_ADDRESS cfg) = true)
    (Hupload : UPLOAD_METADATA_JSON cfg = true)
    (Hlookup : (h (rpc_getAccount (MINT_ADDRESS cfg)) w).1 <> Ok {| exists_ := false |})
    (Huploaded : forall json w', (h (uploader_uploadJson json) w').1 = Ok uploaded) :
  Expected.metadata_calls (trace h (main cfg signer) w) =
    [ rpc_getAccount (MINT_ADDRESS cfg);
      uploader_uploadJson {|
        json_name := name (TOKEN_METADATA cfg);
        json_symbol := symbol (TOKEN_METADATA cfg);
        json_description := description (RICH_METADATA cfg) |};
      sendAndConfirm (Expected.metadata_account cfg signer uploaded) ].
Proof.
  unfold Expected.metadata_calls, Expected.metadata_account, trace,
    SplMetadata.main, SplMetadata.body, publicKey, on_error.
  rewrite Hmint, Hkey, Hupload. cbn.
  answer h as [[[|]] | e]; [| done |].
  - match goal with
    | |- context [h (uploader_uploadJson ?j) ?w'] => specialize (Huploaded j w')
    end.
    answer h as r. subst r. cbn.
    answer h as [sig | e]; [done |]. by caught h e.
  - answer h as u.
    match goal with
    | |- context [h (uploader_uploadJson ?j) ?w'] => specialize (Huploaded j w')
    end.
    answer h as r. subst r. cbn.
    answer h as [sig | e']; [done |]. by caught h e'.
Qed.

(** X14. With the upload switched off and a URI of at least ten code
    units, nothing is uploaded and the URI stored on chain is the
    configured one. *)
Theorem configured_uri_is_used cfg signer w
    (Hmint : mint_placeholder cfg = false)
    (Hkey : isPublicKey (MINT_ADDRESS cfg) = true)
    (Hupload : UPLOAD_METADATA_JSON cfg = false)
    (Huri : 10 <= js_length (uri (TOKEN_METADATA cfg)))
    (Hlookup : (h (rpc_getAccount (MINT_ADDRESS cfg)) w).1 <> Ok {| exists_ := false |}) :
  Expected.metadata_calls (trace h (main cfg signer) w) =
    [ rpc_getAccount (MINT_ADDRESS cfg);
      sendAndConfirm
        (Expected.metadata_account cfg signer (uri (TOKEN_METADATA cfg))) ].
Proof.
  assert (uri_missing (uri (TOKEN_METADATA cfg)) = false) as Hgiven.
  { unfold uri_missing. apply orb_false_iff. split; [| by apply Z.ltb_ge].
    destruct (uri (TOKEN_METADATA cfg)); [unfold js_length in Huri; cbn in Huri; lia | done]. }
  unfold Expected.metadata_calls, Expected.metadata_account, trace,
    SplMetadata.main, SplMetadata.body, publicKey, on_error.
  rewrite Hmint, Hkey, Hupload, Hgiven. cbn.
  answer h as [[[|]] | e]; [| done |].
  - answer h as [sig | e]; [done |]. by caught h e.
  - answer h as u. answer h as [sig | e']; [done |]. by caught h e'.
Qed.

(** X15. When the upload fails, nothing is submitted: the remote
    calls are the lookup and the one upload attempt.  The rejection
    goes to the [catch]; the run ends normally when its message can be
    read and tested (every [Error]), and with the [catch]'s own
    TypeError when the rejection is [null] or [undefined], or carries a
    message that is not a string and has no [includes]. *)
Theorem failed_upload_not_submitted cfg signer w e
    (Hmint : mint_placeholder cfg = false)
    (Hkey : isPublicKey (MINT_ADDRESS cfg) = true)
    (Hupload : UPLOAD_METADATA_JSON cfg = true)
    (Hlookup : (h (rpc_getAccount (MINT_ADDRESS cfg)) w).1 <> Ok {| exists_ := false |})
    (Hfailed : forall json w', (h (uploader_uploadJson json) w').1 = Err e) :
  Expected.metadata_calls (trace h (main cfg signer) w) =
    [ rpc_getAccount (MINT_ADDRESS cfg);
      uploader_uploadJson {|
        json_name := name (TOKEN_METADATA cfg);
        json_symbol := symbol (TOKEN_METADATA cfg);
        json_description := description (RICH_METADATA cfg) |} ] /\
  outcome h (main cfg signer) w =
    match e with
    | ErrorValue _ | OddMessage (Some _) => Normal tt
    | OddMessage None =>
        Thrown (error_of "error.message.includes is not a function")
    | Nullish false =>
        Thrown (error_of "Cannot read properties of null (reading 'message')")
    | Nullish true =>
        Thrown (error_of "Cannot read properties of undefined (reading 'message')")
    end.
Proof.
  unfold Expected.metadata_calls, trace, outcome,
    SplMetadata.main, SplMetadata.body, publicKey, on_error.
  rewrite Hmint, Hkey, Hupload. cbn.
  answer h as [[[|]] | e0]; [| done |].
  - match goal with
    | |- context [h (uploader_uploadJson ?j) ?w'] => specialize (Hfailed j w')
    end.
    answer h as r. subst r. cbn.
    destruct e as [? | [[] |] | []]; cbn; settle h;
      try (destruct (is_nft_conflict _); cbn; settle h); done.
  - answer h as u.
    match goal with
    | |- context [h (uploader_uploadJson ?j) ?w'] => specialize (Hfailed j w')
    end.
    answer h as r. subst r. cbn.
    destruct e as [? | [[] |] | []]; cbn; settle h;
      try (destruct (is_nft_conflict _); cbn; settle h); done.
Qed.

(** The [try] block exits with code 1 or not at all. *)
Lemma body_exit_code cfg signer w code :
  outcome h (body cfg signer) w = Exited code -> code = 1.
Proof.
  unfold outcome, SplMetadata.body, publicKey.
  destruct (mint_placeholder cfg); cbn; [settle h; congruence |].
  destruct (isPublicKey (MINT_ADDRESS cfg)); cbn; [| congruence].
  answer h as [[[|]] | e].
  - destruct (UPLOAD_METADATA_JSON cfg); cbn.
    + answer h as [u | e]; [answer h as [sig | e] |]; congruence.
    + destruct (uri_missing _); cbn; [settle h; congruence |].
      answer h as [sig | e]; congruence.
  - settle h; congruence.
  - answer h as u0. destruct (UPLOAD_METADATA_JSON cfg); cbn.
    + answer h as [u | e']; [answer h as [sig | e'] |]; congruence.
    + destruct (uri_missing _); cbn; [settle h; congruence |].
      answer h as [sig | e']; congruence.
Qed.

(** X16. How the script's async block ends, by how its [try] block
    ends.  When the [try] block completes, or throws a value whose
    message the [catch] can read and test, the block ends normally; a
    [process.exit] in the [try] block has code 1 and ends the run; the
    only error that escapes is the TypeError the [catch] itself raises,
    on [null] or [undefined] or on a message that is not a string and
    has no [includes]. *)
Theorem metadata_block_ending cfg signer w :
  match outcome h (body cfg signer) w with
  | Normal _ | Thrown (ErrorValue _) | Thrown (OddMessage (Some _)) =>
      outcome h (main cfg signer) w = Normal tt
  | Exited code =>
      code = 1 /\ outcome h (main cfg signer) w = Exited 1
  | Thrown (OddMessage None) =>
      outcome h (main cfg signer) w =
        Thrown (error_of "error.message.includes is not a function")
  | Thrown (Nullish false) =>
      outcome h (main cfg signer) w =
        Thrown (error_of "Cannot read properties of null (reading 'message')")
  | Thrown (Nullish true) =>
      outcome h (main cfg signer) w =
        Thrown (error_of "Cannot read properties of undefined (reading 'message')")
  end.
Proof.
  destruct (outcome h (body cfg signer) w) as [[] | e | code] eqn:Hout.
  - destruct (try_catch_not_thrown h (body cfg signer) on_error w) as [_ Hsame].
    { intros e. by rewrite Hout. }
    unfold SplMetadata.main. by rewrite Hsame.
  - unfold SplMetadata.main.
    rewrite (outcome_try_catch_thrown h _ _ _ _ Hout), MetadataFacts.outcome_on_error.
    by destruct e as [m | [[] |] | []].
  - pose proof (body_exit_code cfg signer w code Hout) as ->.
    destruct (try_catch_not_thrown h (body cfg signer) on_error w) as [_ Hsame].
    { intros e. by rewrite Hout. }
    unfold SplMetadata.main. by rewrite Hsame.
Qed.

(** X17. In every run the lookup, the upload and the submission are each
    made at most once, whether the run succeeds, exits or fails. *)
Theorem metadata_never_repeats cfg signer w :
  (count is_lookup (trace h (main cfg signer) w) <= 1)%nat /\
  (count is_upload (trace h (main cfg signer) w) <= 1)%nat /\
  (count is_submission (trace h (main cfg signer) w) <= 1)%nat.
Proof.
  destruct (MetadataFacts.body_calls_once isPublicKey InvalidPublicKeyError h cfg signer w)
    as (Hl & Hu & Hs).
  unfold SplMetadata.main.
  destruct (outcome h (body cfg signer) w) as [[] | e | n] eqn:Hout.
  - destruct (try_catch_not_thrown h (body cfg signer) on_error w) as [-> _]; [| done].
    intros e. by rewrite Hout.
  - rewrite (trace_try_catch_thrown h _ _ _ _ Hout).
    unfold count in *. rewrite !List.filter_app, !length_app.
    rewrite !(MetadataFacts.on_error_remote h) by done. cbn. lia.
  - destruct (try_catch_not_thrown h (body cfg signer) on_error w) as [-> _]; [| done].
    intros e. by rewrite Hout.
Qed.
End Sdk.

Lemma placeholder_mint_exits_witness :
  trace (scripted (Ok {| exists_ := true |}) (Ok (js "uri")) (Ok []))
    (main sample_isPublicKey sample_InvalidPublicKeyError
       (Expected.upload_config (js "<PASTE_MINT_ADDRESS_FROM_SPL_INIT_OUTPUT_HERE>"))
       sample_signer) tt =
    [ console_error
        (nl +:+ "❌ ERROR: Please update MINT_ADDRESS with your token's mint address") [];
      console_log "   Get this from spl_init.ts output." ] /\
  outcome (scripted (Ok {| exists_ := true |}) (Ok (js "uri")) (Ok []))
    (main sample_isPublicKey sample_InvalidPublicKeyError
       (Expected.upload_config (js "<PASTE_MINT_ADDRESS_FROM_SPL_INIT_OUTPUT_HERE>"))
       sample_signer) tt = Exited 1.
Proof.
  apply (placeholder_mint_exits sample_isPublicKey sample_InvalidPublicKeyError
           (scripted (Ok {| exists_ := true |}) (Ok (js "uri")) (Ok []))
           (Expected.upload_config (js "<PASTE_MINT_ADDRESS_FROM_SPL_INIT_OUTPUT_HERE>"))
           sample_signer tt).
  left. exists [], (js "_MINT_ADDRESS_FROM_SPL_INIT_OUTPUT_HERE>"). reflexivity.
Defined.

Lemma missing_mint_account_exits_witness :
  Expected.metadata_calls
    (trace (scripted (Ok {| exists_ := false |}) (Ok (js "uri")) (Ok []))
       (main sample_isPublicKey sample_InvalidPublicKeyError source_config sample_signer)
       tt) =
    [rpc_getAccount (MINT_ADDRESS source_config)] /\
  outcome (scripted (Ok {| exists_ := false |}) (Ok (js "uri")) (Ok []))
    (main sample_isPublicKey sample_InvalidPublicKeyError source_config sample_signer) tt
    = Exited 1.
Proof.
  apply (missing_mint_account_exits sample_isPublicKey sample_InvalidPublicKeyError
           (scripted (Ok {| exists_ := false |}) (Ok (js "uri")) (Ok []))
           source_config sample_signer tt); reflexivity.
Defined.

Lemma unparsable_mint_no_calls_witness :
  Expected.metadata_calls
    (trace (scripted (Ok {| exists_ := true |}) (Ok (js "uri")) (Ok []))
       (main sample_isPublicKey sample_InvalidPublicKeyError
          (Expected.upload_config (js "0000000000000000000000000000000000000000"))
          sample_signer) tt) = [] /\
  head
    (trace (scripted (Ok {| exists_ := true |}) (Ok (js "uri")) (Ok []))
       (main sample_isPublicKey sample_InvalidPublicKeyError
          (Expected.upload_config (js "0000000000000000000000000000000000000000"))
          sample_signer) tt) =
    Some (console_error (nl +:+ "❌ Error creating metadata:")
            [message_or_error
               (ErrorValue
                  (Some
                     (sample_InvalidPublicKeyError
                        (MINT_ADDRESS
                           (Expected.upload_config
                              (js "0000000000000000000000000000000000000000"))))))]) /\
  outcome (scripted (Ok {| exists_ := true |}) (Ok (js "uri")) (Ok []))
    (main sample_isPublicKey sample_InvalidPublicKeyError
       (Expected.upload_config (js "0000000000000000000000000000000000000000"))
       sample_signer) tt = Normal tt.
Proof.
  apply (unparsable_mint_no_calls sample_isPublicKey sample_InvalidPublicKeyError
           (scripted (Ok {| exists_ := true |}) (Ok (js "uri")) (Ok []))
           (Expected.upload_config (js "0000000000000000000000000000000000000000"))
           sample_signer tt); reflexivity.
Defined.

Lemma uploaded_uri_is_used_witness :
  Expected.metadata_calls
    (trace (scripted (Err (error_of "node unreachable"))
              (Ok (js "https://arweave.net/fresh")) (Ok []))
       (main sample_isPublicKey sample_InvalidPublicKeyError source_config sample_signer)
       tt) =
    [ rpc_getAccount (MINT_ADDRESS source_config);
      uploader_uploadJson {|
        json_name := name (TOKEN_METADATA source_config);
        json_symbol := symbol (TOKEN_METADATA source_config);
        json_description := description (RICH_METADATA source_config) |};
      sendAndConfirm
        (Expected.metadata_account source_config sample_signer
           (js "https://arweave.net/fresh")) ].
Proof.
  apply (uploaded_uri_is_used sample_isPublicKey sample_InvalidPublicKeyError
           (scripted (Err (error_of "node unreachable"))
              (Ok (js "https://arweave.net/fresh")) (Ok []))
           source_config sample_signer tt (js "https://arweave.net/fresh"));
    [reflexivity | reflexivity | reflexivity | discriminate | reflexivity].
Defined.

Lemma configured_uri_is_used_witness :
  Expected.metadata_calls
    (trace (scripted (Ok {| exists_ := true |}) (Ok (js "unused")) (Ok []))
       (main sample_isPublicKey sample_InvalidPublicKeyError
          (direct_uri_config (MINT_ADDRESS source_config)
             (uri (TOKEN_METADATA source_config)))
          sample_signer) tt) =
    [ rpc_getAccount
        (MINT_ADDRESS
           (direct_uri_config (MINT_ADDRESS source_config)
              (uri (TOKEN_METADATA source_config))));
      sendAndConfirm
        (Expected.metadata_account
           (direct_uri_config (MINT_ADDRESS source_config)
              (uri (TOKEN_METADATA source_config)))
           sample_signer
           (uri (TOKEN_METADATA
                   (direct_uri_config (MINT_ADDRESS source_config)
                      (uri (TOKEN_METADATA source_config)))))) ].
Proof.
  apply (configured_uri_is_used sample_isPublicKey sample_InvalidPublicKeyError
           (scripted (Ok {| exists_ := true |}) (Ok (js "unused")) (Ok []))
           (direct_uri_config (MINT_ADDRESS source_config)
              (uri (TOKEN_METADATA source_config)))
           sample_signer tt);
    [reflexivity | reflexivity | reflexivity | by vm_compute | discriminate].
Defined.

Lemma failed_upload_not_submitted_witness :
  Expected.metadata_calls
    (trace (scripted (Ok {| exists_ := true |}) (Err (error_of "Irys is unavailable"))
              (Ok []))
       (main sample_isPublicKey sample_InvalidPublicKeyError source_config sample_signer)
       tt) =
    [ rpc_getAccount (MINT_ADDRESS source_config);
      uploader_uploadJson {|
        json_name := name (TOKEN_METADATA source_config);
        json_symbol := symbol (TOKEN_METADATA source_config);
        json_description := description (RICH_METADATA source_config) |} ] /\
  outcome (scripted (Ok {| exists_ := true |}) (Err (error_of "Irys is unavailable"))
             (Ok []))
    (main sample_isPublicKey sample_InvalidPublicKeyError source_config sample_signer) tt
    = match error_of "Irys is unavailable" with
      | ErrorValue _ | OddMessage (Some _) => Normal tt
      | OddMessage None =>
          Thrown (error_of "error.message.includes is not a function")
      | Nullish false =>
          Thrown (error_of "Cannot read properties of null (reading 'message')")
      | Nullish true =>
          Thrown (error_of "Cannot read properties of undefined (reading 'message')")
      end.
Proof.
  apply (failed_upload_not_submitted sample_isPublicKey sample_InvalidPublicKeyError
           (scripted (Ok {| exists_ := true |}) (Err (error_of "Irys is unavailable"))
              (Ok []))
           source_config sample_signer tt (error_of "Irys is unavailable"));
    [reflexivity | reflexivity | reflexivity | discriminate | reflexivity].
Defined.

End MetadataRuns.

(** ** keygen.ts: failure and frame *)

Module KeygenMore.
Import Fs Json Keygen.

Section Run.
Variable __dirname : Path.
Variable toBase58 : Web3.PublicKey -> string.
Variable generated : Web3.Keypair.

Local Abbreviation dir := (walletDir __dirname).
Local Abbreviation file := (walletFile __dirname).
Local Abbreviation content := (JSON_stringify (Array_from (Web3.secretKey generated))).
Local Abbreviation keygen := (main __dirname toBase58).

(** X20. When a regular file sits at the wallet path, the existence check
    succeeds, so no directory is created; the write then fails with
    ENOTDIR, the error is not caught, the file system is left as it was
    and nothing is printed. *)
Theorem keygen_blocked_by_file (fs : FS) (occupant : string)
    (Hfile : fs !! dir = Some (File occupant)) :
  trace (world generated) keygen fs =
    [Keypair_generate; existsSync dir; writeFileSync file content] /\
  outcome (world generated) keygen fs = Thrown (error_of "ENOTDIR") /\
  final (world generated) keygen fs = fs /\
  printed (trace (world generated) keygen fs) = [].
Proof.
  assert (fs_writeFileSync fs file content = Err (error_of "ENOTDIR")) as Hwrite.
  { unfold fs_writeFileSync, walletFile, path_join.
    rewrite FsFacts.parent_snoc. unfold walletDir, path_join in *.
    assert (node_at fs (__dirname ++ ["wallet"%string]) = Some (File occupant)) as ->
      by (etrans; [apply FsFacts.node_at_snoc | exact Hfile]).
    done. }
  unfold trace, outcome, final, main.
  cbn -[fs_existsSync fs_mkdirSync fs_writeFileSync].
  rewrite KeygenFacts.existsSync_dir, Hfile.
  cbn -[fs_mkdirSync fs_writeFileSync]. rewrite Hwrite. done.
Qed.

(** X21. The six lines announcing the wallet are printed exactly in the
    runs that end normally, after the write; a run that fails prints
    nothing, and no run exits on its own. *)
Theorem keygen_prints_after_write (fs : FS) :
  printed (trace (world generated) keygen fs) =
    match outcome (world generated) keygen fs with
    | Normal _ => announcement __dirname toBase58 generated
    | _ => []
    end /\
  (forall code, outcome (world generated) keygen fs <> Exited code).
Proof.
  unfold trace, outcome, main. cbn -[fs_existsSync fs_mkdirSync fs_writeFileSync].
  destruct (fs_existsSync fs dir); cbn -[fs_mkdirSync fs_writeFileSync].
  - destruct (fs_writeFileSync fs file content); cbn; done.
  - destruct (fs_mkdirSync fs dir) as [fs' | e]; cbn -[fs_writeFileSync]; [| done].
    destruct (fs_writeFileSync fs' file content); cbn; done.
Qed.

(** X22. A run that succeeds touches the wallet directory and the wallet
    file and nothing else: every other path holds what it held. *)
Theorem keygen_frame (fs : FS) (p : Path)
    (Hchain : directory_chain fs __dirname)
    (Hdir : fs !! dir = None \/ fs !! dir = Some Directory)
    (Hfile : fs !! file <> Some Directory)
    (Hp_dir : p <> dir) (Hp_file : p <> file) :
  final (world generated) keygen fs !! p = fs !! p.
Proof.
  unfold final. rewrite KeygenFacts.keygen_run; [| tauto | done]. cbn [fst snd].
  rewrite lookup_insert_ne by done.
  destruct (fs_existsSync fs dir); [done |].
  by rewrite lookup_insert_ne.
Qed.
End Run.

Lemma keygen_blocked_by_file_witness :
  trace (world first_key) (main ["cluster1"%string] sample_toBase58)
    Expected.blocked_checkout =
    [ Keypair_generate;
      existsSync (walletDir ["cluster1"%string]);
      writeFileSync (walletFile ["cluster1"%string])
        (JSON_stringify (Array_from (Web3.secretKey first_key))) ] /\
  outcome (world first_key) (main ["cluster1"%string] sample_toBase58)
    Expected.blocked_checkout = Thrown (error_of "ENOTDIR") /\
  final (world first_key) (main ["cluster1"%string] sample_toBase58)
    Expected.blocked_checkout = Expected.blocked_checkout /\
  printed (trace (world first_key) (main ["cluster1"%string] sample_toBase58)
             Expected.blocked_checkout) = [].
Proof.
  apply (keygen_blocked_by_file ["cluster1"%string] sample_toBase58 first_key
           Expected.blocked_checkout "not a directory").
  reflexivity.
Defined.

Lemma keygen_frame_witness :
  final (world first_key) (main ["cluster1"%string] sample_toBase58) checkout
    !! ["cluster1"%string] = checkout !! ["cluster1"%string].
Proof.
  apply (keygen_frame ["cluster1"%string] sample_toBase58 first_key checkout
           ["cluster1"%string]).
  - exact KeygenFacts.checkout_chain.
  - left. reflexivity.
  - vm_compute. discriminate.
  - discriminate.
  - discriminate.
Defined.

Lemma second_run_replaces_key_witness :
  after_first_run !! walletFile ["cluster1"%string]
    = Some (File (JSON_stringify (Array_from (Web3.secretKey first_key)))) /\
  made (trace (world second_key) (main ["cluster1"%string] sample_toBase58)
          after_first_run) = [] /\
  final (world second_key) (main ["cluster1"%string] sample_toBase58) after_first_run
    !! walletFile ["cluster1"%string]
    = Some (File (JSON_stringify (Array_from (Web3.secretKey second_key)))) /\
  (Web3.secretKey first_key <> Web3.secretKey second_key ->
   final (world second_key) (main ["cluster1"%string] sample_toBase58) after_first_run
     !! walletFile ["cluster1"%string]
   <> after_first_run !! walletFile ["cluster1"%string]).
Proof.
  apply (KeygenFacts.second_run_replaces_key ["cluster1"%string] sample_toBase58
           first_key second_key checkout).
  - exact KeygenFacts.checkout_chain.
  - left. reflexivity.
  - vm_compute. discriminate.
Defined.

End KeygenMore.

(** ** The NFT scripts *)

Module NftFacts.
Import Nft.

(** The placeholder check, in words. *)
Lemma uri_placeholder_spec (uri : JsString) :
  uri_placeholder uri = true <->
  (exists pre post, uri = pre ++ js "<PASTE" ++ post) \/ js_length uri < 10.
Proof.
  unfold uri_placeholder. by rewrite orb_true_iff, js_includes_spec, Z.ltb_lt.
Qed.

Lemma uri_given (uri : JsString) :
  (forall pre post, uri <> pre ++ js "<PASTE" ++ post) ->
  10 <= js_length uri ->
  uri_placeholder uri = false.
Proof.
  intros Hno Hlong. apply not_true_is_false. rewrite uri_placeholder_spec.
  intros [(pre & post & Heq) | Hshort]; [by apply (Hno pre post) | lia].
Qed.

Section World.
Context {W : Type} (h : Handler Resp W).

(** X23. nft_metadata.ts.  An image URI that still contains "<PASTE", or
    has fewer than ten code units, ends the run with exit code 1 after
    two lines of explanation: no document is built or uploaded. *)
Theorem metadata_placeholder_exits IMAGE_URI signer w
    (Huri : (exists pre post, IMAGE_URI = pre ++ js "<PASTE" ++ post) \/
            js_length IMAGE_URI < 10) :
  trace h (metadata_main IMAGE_URI signer) w =
    [ console_error
        (nl +:+ "❌ ERROR: Please update IMAGE_URI with the URI from Step 1") [];
      console_log "   Run 'yarn nft_image' first, then paste the URI here." ] /\
  outcome h (metadata_main IMAGE_URI signer) w = Exited 1.
Proof.
  apply uri_placeholder_spec in Huri.
  unfold trace, outcome, metadata_main. rewrite Huri. cbn. by settle h.
Qed.

(** X24. nft_metadata.ts.  For any other image URI the run makes one
    upload, of a document that carries that URI both as its image and
    as the URI of its one file, the six attributes of the source and the
    wallet as sole creator with share 100; it ends normally whether the
    upload succeeds or fails, and does not try again. *)
Theorem metadata_uploads_document IMAGE_URI signer w
    (Hno : forall pre post, IMAGE_URI <> pre ++ js "<PASTE" ++ post)
    (Hlong : 10 <= js_length IMAGE_URI) :
  calls (trace h (metadata_main IMAGE_URI signer) w) =
    [uploader_uploadJson (metadata_of IMAGE_URI signer)] /\
  image (metadata_of IMAGE_URI signer) = IMAGE_URI /\
  List.map file_uri (files (properties (metadata_of IMAGE_URI signer))) = [IMAGE_URI] /\
  length (attributes (metadata_of IMAGE_URI signer)) = 6%nat /\
  md_creators (metadata_of IMAGE_URI signer) =
    [ {| creator_address := signer; creator_share := 100 |} ] /\
  outcome h (metadata_main IMAGE_URI signer) w = Normal tt.
Proof.
  unfold calls, trace, outcome, metadata_main. rewrite (uri_given _ Hno Hlong). cbn.
  answer h as [uploaded | e]; [done |]. by settle h.
Qed.

(** X25. nft_mint.ts.  A metadata URI that still contains "<PASTE", or has
    fewer than ten code units, ends the run with exit code 1 before a
    mint key is generated and before anything is submitted. *)
Theorem mint_placeholder_exits METADATA_URI signer w
    (Huri : (exists pre post, METADATA_URI = pre ++ js "<PASTE" ++ post) \/
            js_length METADATA_URI < 10) :
  trace h (mint_main METADATA_URI signer) w =
    [ console_error
        (nl +:+ "❌ ERROR: Please update METADATA_URI with the URI from Step 2") [];
      console_log "   Run 'yarn nft_metadata' first, then paste the URI here." ] /\
  outcome h (mint_main METADATA_URI signer) w = Exited 1.
Proof.
  apply uri_placeholder_spec in Huri.
  unfold trace, outcome, mint_main. rewrite Huri. cbn. by settle h.
Qed.

(** X26. nft_mint.ts.  For any other metadata URI the run generates a mint
    key and submits one [createNft] for that key, with the pasted URI,
    the wallet as verified sole creator, mutable and not yet sold; it
    ends normally whether the submission succeeds or fails, and does
    not try again. *)
Theorem mint_submits_once METADATA_URI signer w
    (Hno : forall pre post, METADATA_URI <> pre ++ js "<PASTE" ++ post)
    (Hlong : 10 <= js_length METADATA_URI) :
  calls (trace h (mint_main METADATA_URI signer) w) =
    [ generateSigner;
      sendAndConfirm {|
        nft_mint := (h generateSigner w).1;
        nft_name := js "Generug #1";
        nft_symbol := js "GRUG";
        nft_uri := METADATA_URI;
        nft_sellerFeeBasisPoints := percentAmount (number_of 500 / 100);
        nft_creators := [ {| address := signer; verified := true; share := 100 |} ];
        nft_isMutable := true;
        nft_primarySaleHappened := false |} ] /\
  outcome h (mint_main METADATA_URI signer) w = Normal tt.
Proof.
  unfold calls, trace, outcome, mint_main. rewrite (uri_given _ Hno Hlong). cbn.
  answer h as mint. answer h as [result | e]; [done |]. by settle h.
Qed.

(** X27. nft_image.ts.  The image is read from [generug.png] beside the
    script's directory; what is uploaded is one file with exactly the
    bytes read, named generug.png, typed image/png.  When the read
    fails nothing is uploaded.  Either way the run ends normally. *)
Theorem image_calls __dirname w :
  calls (trace h (image_main __dirname) w) =
    readFile (Fs.parent __dirname ++ ["generug.png"%string]) ::
    match (h (readFile (Fs.parent __dirname ++ ["generug.png"%string])) w).1 with
    | Ok imageBuffer =>
        [uploader_upload
           [createGenericFile imageBuffer (js "generug.png") (js "image/png")]]
    | Err _ => []
    end /\
  outcome h (image_main __dirname) w = Normal tt.
Proof.
  unfold calls, trace, outcome, image_main, IMAGE_PATH, Fs.path_join. cbn.
  answer h as [imageBuffer | e].
  - answer h as [uris | e]; [done |]. by settle h.
  - by settle h.
Qed.
End World.

Lemma source_uris_are_given :
  (forall pre post, source_IMAGE_URI <> pre ++ js "<PASTE" ++ post) /\
  (forall pre post, source_METADATA_URI <> pre ++ js "<PASTE" ++ post).
Proof.
  split; intros pre post Heq.
  - assert (js_includes source_IMAGE_URI (js "<PASTE") = true) as H
      by (apply js_includes_spec; eauto).
    vm_compute in H. discriminate.
  - assert (js_includes source_METADATA_URI (js "<PASTE") = true) as H
      by (apply js_includes_spec; eauto).
    vm_compute in H. discriminate.
Defined.

Lemma metadata_placeholder_exits_witness :
  trace (scripted (Ok []) (Ok []) (Ok (js "uri")) sample_mint (Ok []))
    (metadata_main (js "<PASTE_IMAGE_URI_HERE>") sample_signer) tt =
    [ console_error
        (nl +:+ "❌ ERROR: Please update IMAGE_URI with the URI from Step 1") [];
      console_log "   Run 'yarn nft_image' first, then paste the URI here." ] /\
  outcome (scripted (Ok []) (Ok []) (Ok (js "uri")) sample_mint (Ok []))
    (metadata_main (js "<PASTE_IMAGE_URI_HERE>") sample_signer) tt = Exited 1.
Proof.
  apply (metadata_placeholder_exits
           (scripted (Ok []) (Ok []) (Ok (js "uri")) sample_mint (Ok []))
           (js "<PASTE_IMAGE_URI_HERE>") sample_signer tt).
  left. exists [], (js "_IMAGE_URI_HERE>"). reflexivity.
Defined.

Lemma metadata_uploads_document_witness :
  calls (trace (scripted (Ok []) (Ok []) (Err (error_of "not enough SOL")) sample_mint
                  (Ok []))
           (metadata_main source_IMAGE_URI sample_signer) tt) =
    [uploader_uploadJson (metadata_of source_IMAGE_URI sample_signer)] /\
  image (metadata_of source_IMAGE_URI sample_signer) = source_IMAGE_URI /\
  List.map file_uri (files (properties (metadata_of source_IMAGE_URI sample_signer)))
    = [source_IMAGE_URI] /\
  length (attributes (metadata_of source_IMAGE_URI sample_signer)) = 6%nat /\
  md_creators (metadata_of source_IMAGE_URI sample_signer) =
    [ {| creator_address := sample_signer; creator_share := 100 |} ] /\
  outcome (scripted (Ok []) (Ok []) (Err (error_of "not enough SOL")) sample_mint (Ok []))
    (metadata_main source_IMAGE_URI sample_signer) tt = Normal tt.
Proof.
  apply (metadata_uploads_document
           (scripted (Ok []) (Ok []) (Err (error_of "not enough SOL")) sample_mint (Ok []))
           source_IMAGE_URI sample_signer tt).
  - exact (proj1 source_uris_are_given).
  - by vm_compute.
Defined.

Lemma mint_placeholder_exits_witness :
  trace (scripted (Ok []) (Ok []) (Ok (js "uri")) sample_mint (Ok []))
    (mint_main (js "ar://x") sample_signer) tt =
    [ console_error
        (nl +:+ "❌ ERROR: Please update METADATA_URI with the URI from Step 2") [];
      console_log "   Run 'yarn nft_metadata' first, then paste the URI here." ] /\
  outcome (scripted (Ok []) (Ok []) (Ok (js "uri")) sample_mint (Ok []))
    (mint_main (js "ar://x") sample_signer) tt = Exited 1.
Proof.
  apply (mint_placeholder_exits
           (scripted (Ok []) (Ok []) (Ok (js "uri")) sample_mint (Ok []))
           (js "ar://x") sample_signer tt).
  right. by vm_compute.
Defined.

Lemma mint_submits_once_witness :
  calls (trace (scripted (Ok []) (Ok []) (Ok (js "uri")) sample_mint (Ok []))
           (mint_main source_METADATA_URI sample_signer) tt) =
    [ generateSigner;
      sendAndConfirm {|
        nft_mint :=
          (scripted (Ok []) (Ok []) (Ok (js "uri")) sample_mint (Ok []) generateSigner tt).1;
        nft_name := js "Generug #1";
        nft_symbol := js "GRUG";
        nft_uri := source_METADATA_URI;
        nft_sellerFeeBasisPoints := percentAmount (number_of 500 / 100);
        nft_creators := [ {| address := sample_signer; verified := true; share := 100 |} ];
        nft_isMutable := true;
        nft_primarySaleHappened := false |} ] /\
  outcome (scripted (Ok []) (Ok []) (Ok (js "uri")) sample_mint (Ok []))
    (mint_main source_METADATA_URI sample_signer) tt = Normal tt.
Proof.
  apply (mint_submits_once
           (scripted (Ok []) (Ok []) (Ok (js "uri")) sample_mint (Ok []))
           source_METADATA_URI sample_signer tt).
  - exact (proj2 source_uris_are_given).
  - by vm_compute.
Defined.

End NftFacts.
